(** * dazel: a launcher that keeps a build container running and forwards
    commands into it.

    A shallow embedding of [dazel.py] (Python 2) and the properties of its
    control flow: configuration precedence, the volume resolver, the
    staleness test of [main], provisioning in [start], and command
    forwarding.

    The program talks to three things that are not Python values: the file
    system, the process environment and the shell ([os.system]).  They are
    gathered in a [host] record; every function that touches them is written
    in a small state-and-exception monad over a [world]. *)

From Stdlib Require Import ZArith List Ascii.
From stdpp Require Import gmap strings.

Local Open Scope Z_scope.

(** ** Python string operations used by the launcher *)

Module Py.

(** [s.startswith(p)] *)
Fixpoint startswith (p s : string) : bool :=
  match p, s with
  | "", _ => true
  | String _ _, "" => false
  | String a p', String b s' => if decide (a = b) then startswith p' s' else false
  end.

(** [sub in s] *)
Fixpoint contains (sub s : string) : bool :=
  startswith sub s ||
  match s with
  | "" => false
  | String _ s' => contains sub s'
  end.

Fixpoint drop (n : nat) (s : string) : string :=
  match n, s with
  | O, _ => s
  | S _, "" => ""
  | S k, String _ s' => drop k s'
  end.

(** [s.split(sep)] for a non-empty separator.  [skip] counts the
    characters of a separator that was just recognised and is still to be
    passed over; [cur] is the current piece, reversed. *)
Fixpoint split_go (sep : string) (skip : nat) (cur s : string) : list string :=
  match s with
  | "" => [String.rev cur]
  | String a s' =>
      match skip with
      | S k => split_go sep k cur s'
      | O =>
          if startswith sep s
          then String.rev cur :: split_go sep (String.length sep - 1) "" s'
          else split_go sep 0 (String a cur) s'
      end
  end.

Definition split (sep s : string) : list string := split_go sep 0 "" s.

(** [sep.join(l)] *)
Fixpoint join (sep : string) (l : list string) : string :=
  match l with
  | [] => ""
  | [x] => x
  | x :: l' => x +:+ sep +:+ join sep l'
  end.

(** The characters [str.strip()] removes. *)
Definition isspace (c : ascii) : bool := Ascii.is_space c.

Fixpoint lstrip (s : string) : string :=
  match s with
  | "" => ""
  | String a s' => if isspace a then lstrip s' else s
  end.

Fixpoint rstrip (s : string) : string :=
  match s with
  | "" => ""
  | String a s' =>
      match rstrip s' with
      | "" => if isspace a then "" else String a ""
      | r => String a r
      end
  end.

(** [s.strip()] *)
Definition strip (s : string) : string := rstrip (lstrip s).

(** [posixpath.join(a, b)] *)
Fixpoint endswith_slash (s : string) : bool :=
  match s with
  | "" => false
  | String a "" => if decide (a = "/"%char) then true else false
  | String _ s' => endswith_slash s'
  end.

Definition path_join (a b : string) : string :=
  if startswith "/" b then b
  else if decide (a = "") then b
  else if endswith_slash a then a +:+ b
  else a +:+ "/" +:+ b.

End Py.

(** ** Python values a configuration can hold

    The environment only ever supplies strings; a [.dazelrc] is Python code
    and can bind a name to any object.  The kinds below are those the
    volume resolver tells apart. *)

Inductive value :=
  | VStr (s : string)
  | VList (l : list string)
  | VInt (n : Z)
  | VNone.

(** Python truthiness. *)
Definition truthy (v : value) : bool :=
  match v with
  | VStr s => if decide (s = "") then false else true
  | VList l => match l with [] => false | _ => true end
  | VInt n => negb (n =? 0)
  | VNone => false
  end.

(** ** Exceptions *)

Inductive exn :=
  | RuntimeError (msg : string)
  | AttributeError (msg : string)
  | TypeError (msg : string)
  | IndexError
  | OSError (path : string)
  | IOError (path : string)
  | ExecError (msg : string)
  (** a scalar setting bound to something that is not a string: outside
      the model *)
  | Unsupported (key : string).

Inductive outcome (A : Type) :=
  | Ok (a : A)
  | Raise (e : exn).
Arguments Ok {A} a.
Arguments Raise {A} e.

(** ** The file system

    A flat name space keyed by the path as written.  Every entry carries the
    two time stamps of [os.stat]: [st_mtime], the time of the last content
    modification, and [st_ctime], which [os.path.getctime] returns.  The
    launcher only compares times, so integers stand for Python's floats. *)

Record stat := { st_mtime : Z; st_ctime : Z }.

Inductive node :=
  | File (content : string) (st : stat)
  | Dir (st : stat).

Definition node_stat (n : node) : stat :=
  match n with File _ st => st | Dir st => st end.

Module FS.

Definition exists_ (fs : gmap string node) (p : string) : bool :=
  match fs !! p with Some _ => true | None => false end.

Definition isdir (fs : gmap string node) (p : string) : bool :=
  match fs !! p with Some (Dir _) => true | _ => false end.

Definition isfile (fs : gmap string node) (p : string) : bool :=
  match fs !! p with Some (File _ _) => true | _ => false end.

(** The proper ancestors of a path, shortest first: the non-empty
    prefixes that end just before a ["/"]. *)
Fixpoint ancestors_go (cur s : string) : list string :=
  match s with
  | "" => []
  | String a s' =>
      (if decide (a = "/"%char)
       then (if decide (cur = "") then [] else [String.rev cur])
       else [])
      ++ ancestors_go (String a cur) s'
  end.

Definition ancestors (p : string) : list string := ancestors_go "" p.

(** One level of [os.makedirs]: an existing directory is left alone, a
    missing one is created, a file in the way is an error. *)
Definition mkdir_p (t : Z) (p : string) (fs : gmap string node)
  : option (gmap string node) :=
  match fs !! p with
  | Some (Dir _) => Some fs
  | Some (File _ _) => None
  | None => Some (<[p := Dir {| st_mtime := t; st_ctime := t |}]> fs)
  end.

Fixpoint mkdirs (t : Z) (ps : list string) (fs : gmap string node)
  : option (gmap string node) :=
  match ps with
  | [] => Some fs
  | p :: ps' =>
      match mkdir_p t p fs with
      | Some fs' => mkdirs t ps' fs'
      | None => None
      end
  end.

(** [os.makedirs(p)]: fails on the empty path and when [p] or one of its
    ancestors exists and is not a directory (the launcher only calls it
    when [p] is not a directory). *)
Definition makedirs (t : Z) (p : string) (fs : gmap string node)
  : option (gmap string node) :=
  if decide (p = "") then None
  else mkdirs t (ancestors p ++ [p]) fs.

(** Whether [open(p, "w")] can create or truncate a file at [p]: the
    path is not empty, does not end in a slash, does not name a directory,
    and every directory on the way to it exists.  Access rights are not
    part of this file system. *)
Definition writable (fs : gmap string node) (p : string) : bool :=
  negb (bool_decide (p = ""))
  && negb (Py.endswith_slash p)
  && negb (isdir fs p)
  && forallb (isdir fs) (ancestors p).

End FS.

(** ** The host: everything the launcher reaches through [os] and [sys]

    [sh] is [os.system]: it is handed the command line, may consult the
    files, returns the integer [os.system] returns, which is the wait
    status of the shell (the launcher treats it as the exit code of the
    step), and moves the outside world, which holds the container runtime
    and everything else the launcher cannot see.  Shell commands leave the
    launcher's own files alone.  [exec_py] is the Python interpreter applied
    to the text of a [.dazelrc]: the bindings the text leaves in its name
    space, or the exception it dies with. *)

Record host := {
  ext : Type;
  sh : string → gmap string node → ext → Z * ext;
  now : ext → Z;
  realpath : string → string;
  exec_py : string → outcome (gmap string value);
  environ : gmap string string;
  getcwd : string;
  argv : list string;
}.

(** The wait status [os.system] returns for a command that ended by
    itself with exit code [e]: the code sits in the second byte. *)
Definition exited (e : Z) : Z := Z.shiftl e 8.

(** [sys.exit(n)] for an integer [n]: the exit status of the process, the
    low eight bits of [n]. *)
Definition sys_exit (n : Z) : Z := Z.land n 255.

(** The places where the launcher calls [os.system]. *)
Inductive site :=
  | in_is_running
  | in_image_exists
  | in_build
  | in_pull
  | in_start
  | in_send_command.

Global Instance site_eq_dec : EqDecision site.
Proof. solve_decision. Defined.

(** What a run of the launcher does to the outside, in order. *)
Inductive event :=
  | System (s : site) (cmd : string) (rc : Z)
  | Print (msg : string)
  | Wrote (path content : string)
  | MadeDirs (path : string).

Record world (H : host) := World {
  fs : gmap string node;
  outside : ext H;
  log : list event;
}.
Arguments World {H} fs outside log.
Arguments fs {H} w.
Arguments outside {H} w.
Arguments log {H} w.

(** ** State and exceptions *)

Definition M (H : host) (A : Type) : Type := world H → outcome A * world H.

Global Instance M_ret {H} : MRet (M H) := λ A a w, (Ok a, w).

Global Instance M_bind {H} : MBind (M H) := λ A B f m w,
  match m w with
  | (Ok a, w') => f a w'
  | (Raise e, w') => (Raise e, w')
  end.

Definition raise {H A} (e : exn) : M H A := λ w, (Raise e, w).

Definition lift {H A} (o : outcome A) : M H A := λ w, (o, w).

Definition emit {H} (e : event) : M H unit :=
  λ w, (Ok tt, World (fs w) (outside w) (log w ++ [e])).

(** The double quote character, as a string. *)
Definition dq : string := String "034"%char "".

Section Launcher.
Context {H : host}.

(** *** Primitives of [os], [os.path] and files *)

(** What the shell answers to [cmd] in the world [w], and the world it
    leaves. *)
Definition shell_rc (cmd : string) (w : world H) : Z :=
  (sh H cmd (fs w) (outside w)).1.

Definition shell_next (s : site) (cmd : string) (w : world H) : world H :=
  World (fs w) (sh H cmd (fs w) (outside w)).2
        (log w ++ [System s cmd (shell_rc cmd w)]).

Definition os_system (s : site) (cmd : string) : M H Z :=
  λ w, (Ok (shell_rc cmd w), shell_next s cmd w).

Definition os_path_exists (p : string) : M H bool :=
  λ w, (Ok (FS.exists_ (fs w) p), w).

Definition os_path_isdir (p : string) : M H bool :=
  λ w, (Ok (FS.isdir (fs w) p), w).

Definition os_path_getctime (p : string) : M H Z := λ w,
  match fs w !! p with
  | Some n => (Ok (st_ctime (node_stat n)), w)
  | None => (Raise (OSError p), w)
  end.

Definition os_makedirs (p : string) : M H unit := λ w,
  match FS.makedirs (now H (outside w)) p (fs w) with
  | Some fs' => (Ok tt, World fs' (outside w) (log w ++ [MadeDirs p]))
  | None => (Raise (OSError p), w)
  end.

(** [open(p, "r").read()] *)
Definition read_file (p : string) : M H string := λ w,
  match fs w !! p with
  | Some (File c _) => (Ok c, w)
  | _ => (Raise (IOError p), w)
  end.

(** [file(p, "w").write(s)]: creates or truncates the file and stamps it
    with the current time; [IOError] when the file cannot be opened for
    writing. *)
Definition write_file (p s : string) : M H unit := λ w,
  if FS.writable (fs w) p then
    let t := now H (outside w) in
    (Ok tt, World (<[p := File s {| st_mtime := t; st_ctime := t |}]> (fs w))
                  (outside w) (log w ++ [Wrote p s]))
  else (Raise (IOError p), w).

Definition print (msg : string) : M H unit := emit (Print msg).

End Launcher.

(** ** The standard module [types] (Python 2.7)

    [_add_volumes] looks a name up in this module.  The table lists the
    names the module binds, all of them names of types; the kinds that
    matter to [isinstance] on a [value] are told apart, the others are
    opaque. *)

Inductive pytype :=
  | TStr
  | TList
  | TInt
  | TNone
  | TOther (name : string).

Definition types_module : list (string * pytype) :=
  [ ("BooleanType", TOther "bool"); ("BufferType", TOther "buffer");
    ("BuiltinFunctionType", TOther "builtin_function_or_method");
    ("BuiltinMethodType", TOther "builtin_function_or_method");
    ("ClassType", TOther "classobj"); ("CodeType", TOther "code");
    ("ComplexType", TOther "complex"); ("DictProxyType", TOther "dictproxy");
    ("DictType", TOther "dict"); ("DictionaryType", TOther "dict");
    ("EllipsisType", TOther "ellipsis"); ("FileType", TOther "file");
    ("FloatType", TOther "float"); ("FrameType", TOther "frame");
    ("FunctionType", TOther "function"); ("GeneratorType", TOther "generator");
    ("GetSetDescriptorType", TOther "getset_descriptor");
    ("InstanceType", TOther "instance"); ("IntType", TInt);
    ("LambdaType", TOther "function"); ("ListType", TList);
    ("LongType", TOther "long");
    ("MemberDescriptorType", TOther "member_descriptor");
    ("MethodType", TOther "instancemethod"); ("ModuleType", TOther "module");
    ("NoneType", TNone); ("NotImplementedType", TOther "NotImplementedType");
    ("ObjectType", TOther "object"); ("SliceType", TOther "slice");
    ("StringType", TStr); ("StringTypes", TOther "tuple");
    ("TracebackType", TOther "traceback"); ("TupleType", TOther "tuple");
    ("TypeType", TOther "type"); ("UnboundMethodType", TOther "instancemethod");
    ("UnicodeType", TOther "unicode"); ("XRangeType", TOther "xrange") ].

Fixpoint assoc {A} (k : string) (l : list (string * A)) : option A :=
  match l with
  | [] => None
  | (k', a) :: l' => if decide (k = k') then Some a else assoc k l'
  end.

(** [types.<name>] *)
Definition types_getattr {H} (name : string) : M H pytype :=
  match assoc name types_module with
  | Some t => mret t
  | None =>
      raise (AttributeError
               ("'module' object has no attribute '" +:+ name +:+ "'"))
  end.

Definition isinstance (v : value) (t : pytype) : bool :=
  match v, t with
  | VStr _, TStr => true
  | VList _, TList => true
  | VInt _, TInt => true
  | VNone, TNone => true
  | _, TOther name => if decide (name = "object") then true else false
  | _, _ => false
  end.

(** ** Module constants *)

Definition DAZEL_RC_FILE : string := ".dazelrc".
Definition DAZEL_RUN_FILE : string := ".dazel_run".

Definition DEFAULT_INSTANCE_NAME : string := "dazel".
Definition DEFAULT_IMAGE_NAME : string := "dazel".
Definition DEFAULT_LOCAL_DOCKERFILE : string := "Dockerfile.dazel".
Definition DEFAULT_REMOTE_RPOSITORY : string := "dazel".
Definition DEFAULT_DIRECTORY (H : host) : string := getcwd H.
Definition DEFAULT_COMMAND : string := "/bazel/output/bazel".
Definition DEFAULT_VOLUMES : list string := [].
Definition DEFAULT_BAZEL_USER_OUTPUT_ROOT (H : host) : string :=
  default "~" (environ H !! "HOME") +:+ "/.cache/bazel".

(** ** [DockerInstance] *)

Record DockerInstance := {
  instance_name : string;
  image_name : string;
  dockerfile : string;
  repository : string;
  directory : string;
  command : string;
  bazel_user_output_root : string;
  dazel_run_file : string;
  (** the serialised mount arguments, bound by [_add_volumes] *)
  volumes : string;
}.

(** The keyword arguments of the constructor, as [from_config] passes
    them. *)
Record init_args := {
  arg_instance_name : value;
  arg_image_name : value;
  arg_dockerfile : value;
  arg_repository : value;
  arg_directory : value;
  arg_command : value;
  arg_volumes : value;
  arg_bazel_user_output_root : value;
  arg_dazel_run_file : value;
}.

(** The settings, one per keyword argument. *)
Inductive setting :=
  | InstanceName | ImageName | Dockerfile | Repository | Directory
  | Command | Volumes | BazelUserOutputRoot | RunFile.

Definition key (s : setting) : string :=
  match s with
  | InstanceName => "DAZEL_INSTANCE_NAME"
  | ImageName => "DAZEL_IMAGE_NAME"
  | Dockerfile => "DAZEL_DOCKERFILE"
  | Repository => "DAZEL_REPOSITORY"
  | Directory => "DAZEL_DIRECTORY"
  | Command => "DAZEL_COMMAND"
  | Volumes => "DAZEL_VOLUMES"
  | BazelUserOutputRoot => "DAZEL_BAZEL_USER_OUTPUT_ROOT"
  | RunFile => "DAZEL_RUN_FILE"
  end.

Definition builtin_default (H : host) (s : setting) : value :=
  match s with
  | InstanceName => VStr DEFAULT_INSTANCE_NAME
  | ImageName => VStr DEFAULT_IMAGE_NAME
  | Dockerfile => VStr DEFAULT_LOCAL_DOCKERFILE
  | Repository => VStr DEFAULT_REMOTE_RPOSITORY
  | Directory => VStr (DEFAULT_DIRECTORY H)
  | Command => VStr DEFAULT_COMMAND
  | Volumes => VList DEFAULT_VOLUMES
  | BazelUserOutputRoot => VStr (DEFAULT_BAZEL_USER_OUTPUT_ROOT H)
  | RunFile => VStr DAZEL_RUN_FILE
  end.

Definition arg (s : setting) (a : init_args) : value :=
  match s with
  | InstanceName => arg_instance_name a
  | ImageName => arg_image_name a
  | Dockerfile => arg_dockerfile a
  | Repository => arg_repository a
  | Directory => arg_directory a
  | Command => arg_command a
  | Volumes => arg_volumes a
  | BazelUserOutputRoot => arg_bazel_user_output_root a
  | RunFile => arg_dazel_run_file a
  end.

Section Dazel.
Context {H : host}.

(** *** The volume resolver, [_add_volumes] *)

(** Lines 131-135: a string is split at commas and trimmed; anything else
    that is truthy is tested against [types.Iterable]. *)
Definition check_volumes (vols : value) : M H value :=
  match vols with
  | VStr s => mret (VList (map Py.strip (Py.split "," s)))
  | _ =>
      if truthy vols then
        iterable ← types_getattr "Iterable";
        if negb (isinstance vols iterable)
        then raise (RuntimeError
               ("DAZEL_VOLUMES must be comma-separated string " +:+
                "or python iterable of strings"))
        else mret vols
      else mret vols
  end.

(** [volumes += l] *)
Definition iadd (vols : value) (l : list string) : M H (list string) :=
  match vols with
  | VList l0 => mret (l0 ++ l)
  | _ => raise (TypeError "unsupported operand type(s) for +=")
  end.

Definition real_directory (self : DockerInstance) : string :=
  realpath H (directory self).

Definition real_bazelout (self : DockerInstance) : string :=
  realpath H (Py.path_join (Py.path_join (directory self) "bazel-out") "..").

(** Lines 131-144: the mount list, the given entries followed by the two
    implicit mounts. *)
Definition mount_list (self : DockerInstance) (vols : value)
  : M H (list string) :=
  vols ← check_volumes vols;
  iadd vols [ real_directory self +:+ ":" +:+ real_directory self;
              real_bazelout self +:+ ":" +:+ real_bazelout self ].

(** Line 145 *)
Definition serialise (mounts : list string) : string :=
  "-v " +:+ dq +:+ Py.join (dq +:+ " -v " +:+ dq) mounts +:+ dq.

(** Lines 150-154 *)
Definition derive_output_root (self : DockerInstance) : M H string :=
  if negb (truthy (VStr (bazel_user_output_root self)))
     && Py.contains "/_bazel" (real_bazelout self)
  then
    match Py.split "/_bazel" (real_bazelout self) with
    | first_part :: rest :: _ =>
        match Py.split "/" rest with
        | c :: _ => mret (first_part +:+ "/_bazel" +:+ c)
        | [] => raise IndexError
        end
    | _ => raise IndexError
    end
  else mret (bazel_user_output_root self).

Definition _add_volumes (self : DockerInstance) (vols : value)
  : M H DockerInstance :=
  mounts ← mount_list self vols;
  root ← derive_output_root self;
  let self :=
    {| instance_name := instance_name self;
       image_name := image_name self;
       dockerfile := dockerfile self;
       repository := repository self;
       directory := directory self;
       command := command self;
       bazel_user_output_root := root;
       dazel_run_file := dazel_run_file self;
       volumes := serialise mounts |} in
  d ← os_path_isdir (bazel_user_output_root self);
  (if negb d then os_makedirs (bazel_user_output_root self) else mret tt);;
  mret self.

(** A scalar setting has to be a string. *)
Definition str_arg (s : setting) (a : init_args) : M H string :=
  match arg s a with
  | VStr x => mret x
  | _ => raise (Unsupported (key s))
  end.

Definition __init__ (a : init_args) : M H DockerInstance :=
  instance_name ← str_arg InstanceName a;
  image_name ← str_arg ImageName a;
  dockerfile ← str_arg Dockerfile a;
  repository ← str_arg Repository a;
  directory ← str_arg Directory a;
  command ← str_arg Command a;
  bazel_user_output_root ← str_arg BazelUserOutputRoot a;
  dazel_run_file ← str_arg RunFile a;
  _add_volumes
    {| instance_name := instance_name;
       image_name := image_name;
       dockerfile := dockerfile;
       repository := repository;
       directory := directory;
       command := command;
       bazel_user_output_root := bazel_user_output_root;
       dazel_run_file := dazel_run_file;
       volumes := "" |}
    (arg_volumes a).

(** *** Configuration *)

Definition _config_from_file : M H (gmap string value) :=
  let directory := default (DEFAULT_DIRECTORY H) (environ H !! "DAZEL_DIRECTORY") in
  let local_dazelrc_path := Py.path_join directory DAZEL_RC_FILE in
  let dazelrc_path := default local_dazelrc_path (environ H !! "DAZEL_RC_FILE") in
  e ← os_path_exists dazelrc_path;
  if negb e then mret ∅
  else
    text ← read_file dazelrc_path;
    lift (exec_py H text).

Definition _config_from_environment : gmap string value :=
  VStr <$> filter (λ kv, Is_true (Py.startswith "DAZEL_" kv.1)) (environ H).

(** [config.update(other)] *)
Definition update (config other : gmap string value) : gmap string value :=
  other ∪ config.

(** [config.get(k, d)] *)
Definition get (config : gmap string value) (k : string) (d : value) : value :=
  default d (config !! k).

Definition constructor_args (config : gmap string value) : init_args :=
  {| arg_instance_name := get config "DAZEL_INSTANCE_NAME" (VStr DEFAULT_INSTANCE_NAME);
     arg_image_name := get config "DAZEL_IMAGE_NAME" (VStr DEFAULT_IMAGE_NAME);
     arg_dockerfile := get config "DAZEL_DOCKERFILE" (VStr DEFAULT_LOCAL_DOCKERFILE);
     arg_repository := get config "DAZEL_REPOSITORY" (VStr DEFAULT_REMOTE_RPOSITORY);
     arg_directory := get config "DAZEL_DIRECTORY" (VStr (DEFAULT_DIRECTORY H));
     arg_command := get config "DAZEL_COMMAND" (VStr DEFAULT_COMMAND);
     arg_volumes := get config "DAZEL_VOLUMES" (VList DEFAULT_VOLUMES);
     arg_bazel_user_output_root :=
       get config "DAZEL_BAZEL_USER_OUTPUT_ROOT"
           (VStr (DEFAULT_BAZEL_USER_OUTPUT_ROOT H));
     arg_dazel_run_file := get config "DAZEL_RUN_FILE" (VStr DAZEL_RUN_FILE) |}.

Definition from_config : M H DockerInstance :=
  config ← _config_from_file;
  let config := update config _config_from_environment in
  __init__ (constructor_args config).

(** *** Talking to the container runtime *)

Definition send_command_line (self : DockerInstance) (args : list string) : string :=
  "docker exec -it " +:+ instance_name self +:+ " " +:+ command self
    +:+ " --output_user_root=" +:+ bazel_user_output_root self +:+ " "
    +:+ (dq +:+ Py.join (dq +:+ " " +:+ dq) args +:+ dq).

Definition send_command (self : DockerInstance) (args : list string) : M H Z :=
  os_system in_send_command (send_command_line self args).

Definition is_running_line (self : DockerInstance) : string :=
  "docker ps | grep " +:+ instance_name self +:+ " >& /dev/null".

Definition is_running (self : DockerInstance) : M H bool :=
  rc ← os_system in_is_running (is_running_line self);
  mret (rc =? 0).

Definition _image_exists_line (self : DockerInstance) : string :=
  "docker images | grep " +:+ repository self +:+ "/" +:+ image_name self
    +:+ " >& /dev/null".

Definition _image_exists (self : DockerInstance) : M H bool :=
  rc ← os_system in_image_exists (_image_exists_line self);
  mret (rc =? 0).

Definition _build_line (self : DockerInstance) : string :=
  "docker build -t " +:+ repository self +:+ "/" +:+ image_name self
    +:+ " -f " +:+ dockerfile self +:+ " " +:+ directory self.

Definition _build (self : DockerInstance) : M H Z :=
  e ← os_path_exists (dockerfile self);
  if negb e
  then raise (RuntimeError "No Dockerfile to build the dazel image from.")
  else os_system in_build (_build_line self).

Definition _pull_line (self : DockerInstance) : string :=
  "docker pull " +:+ repository self +:+ "/" +:+ image_name self.

Definition _pull (self : DockerInstance) : M H Z :=
  if negb (truthy (VStr (repository self)))
  then raise (RuntimeError "No repository to pull the dazel image from.")
  else os_system in_pull (_pull_line self).

Definition run_line (self : DockerInstance) : string :=
  ("docker stop " +:+ instance_name self +:+ " >& /dev/null ; ")
  +:+ ("docker rm " +:+ instance_name self +:+ " >& /dev/null ; ")
  +:+ ("docker run -id --name=" +:+ instance_name self
       +:+ " -w " +:+ realpath H (directory self)
       +:+ " " +:+ volumes self
       +:+ " " +:+ repository self +:+ "/" +:+ image_name self
       +:+ " /bin/bash").

(** Lines 68-75: build or pull the image. *)
Definition make_image (self : DockerInstance) : M H Z :=
  e ← os_path_exists (dockerfile self);
  if (e : bool) then _build self
  else
    rc ← _pull self;
    if negb (rc =? 0)
    then
      have ← _image_exists self;
      if (have : bool) then mret 0 else mret rc
    else mret rc.

(** Lines 81-96: run the container and touch the run file. *)
Definition launch (self : DockerInstance) : M H Z :=
  print ("Starting docker container '" +:+ instance_name self +:+ "'...");;
  rc ← os_system in_start (run_line self);
  if negb (rc =? 0) then mret rc
  else
    write_file (dazel_run_file self) (instance_name self +:+ String "010"%char "");;
    print "Done.";;
    mret rc.

Definition start (self : DockerInstance) : M H Z :=
  rc ← make_image self;
  if negb (rc =? 0) then mret rc
  else launch self.

(** *** [main] *)

(** The condition of the [if] in [main], lines 188-191, with Python's
    left-to-right short-circuit evaluation. *)
Definition stale (di : DockerInstance) : M H bool :=
  e ← os_path_exists (dazel_run_file di);
  if negb e then mret true
  else
    r ← is_running di;
    if negb r then mret true
    else
      e ← os_path_exists (dockerfile di);
      if (e : bool) then
        t_dockerfile ← os_path_getctime (dockerfile di);
        t_run_file ← os_path_getctime (dazel_run_file di);
        mret (t_run_file <? t_dockerfile)
      else mret false.

(** Lines 192-197: provision, and forward the command line unless
    provisioning failed. *)
Definition provision_then_forward (di : DockerInstance) : M H Z :=
  rc ← start di;
  if negb (rc =? 0) then mret rc
  else send_command di (tail (argv H)).

(** Lines 188-197, for the instance [from_config] returned. *)
Definition run (di : DockerInstance) : M H Z :=
  s ← stale di;
  if (s : bool) then provision_then_forward di
  else send_command di (tail (argv H)).

Definition main : M H Z :=
  di ← from_config;
  run di.

(** Line 201, [sys.exit(main())]: the exit status of the process and the
    world it leaves.  An exception that reaches the top level ends the
    process with status 1. *)
Definition __main__ (w : world H) : Z * world H :=
  match main w with
  | (Ok rc, w') => (sys_exit rc, w')
  | (Raise _, w') => (1, w')
  end.

End Dazel.

Arguments _config_from_environment : clear implicits.
Arguments constructor_args : clear implicits.
Arguments real_directory : clear implicits.
Arguments real_bazelout : clear implicits.
Arguments run_line : clear implicits.

(** ** Statements in the words of the specification *)

(** The precedence rule in the words of the specification: the
    environment, else the configuration file, else the built-in default. *)
Definition precedence (H : host) (file : gmap string value) (s : setting) : value :=
  match environ H !! key s with
  | Some x => VStr x
  | None =>
      match file !! key s with
      | Some v => v
      | None => builtin_default H s
      end
  end.

(** The settings [_add_volumes] stores as they were passed. *)
Definition stored (s : setting) (di : DockerInstance) : option value :=
  match s with
  | InstanceName => Some (VStr (instance_name di))
  | ImageName => Some (VStr (image_name di))
  | Dockerfile => Some (VStr (dockerfile di))
  | Repository => Some (VStr (repository di))
  | Directory => Some (VStr (directory di))
  | Command => Some (VStr (command di))
  | RunFile => Some (VStr (dazel_run_file di))
  | Volumes | BazelUserOutputRoot => None
  end.

(** The events a computation added to the log, given the worlds before and
    after it. *)
Definition new_events {H} (w w' : world H) : list event :=
  drop (length (log w)) (log w').

(** The container counts as running when the shell answers 0 to the command
    line of [is_running]. *)
Definition reported_running {H} (di : DockerInstance) (w : world H) : bool :=
  shell_rc (is_running_line di) w =? 0.

(** The staleness decision as a function of what [main] looks at: the run
    file, the answer of [is_running], and the change times ([st_ctime]) of
    the Dockerfile and the run file. *)
Definition needs_provisioning {H} (di : DockerInstance) (w : world H) : bool :=
  match fs w !! dazel_run_file di with
  | None => true
  | Some m =>
      if reported_running di w then
        match fs w !! dockerfile di with
        | None => false
        | Some d => st_ctime (node_stat m) <? st_ctime (node_stat d)
        end
      else true
  end.

(** The world in which [main] goes on after the test: [is_running] has
    been asked unless the run file was missing. *)
Definition after_test {H} (di : DockerInstance) (w : world H) : world H :=
  match fs w !! dazel_run_file di with
  | None => w
  | Some _ => shell_next in_is_running (is_running_line di) w
  end.

(** The worlds [launch] passes through: after the announcement, after the
    container was run, and after the run file was written. *)
Definition announced {H} (self : DockerInstance) (w : world H) : world H :=
  World (fs w) (outside w)
        (log w ++ [Print ("Starting docker container '" +:+ instance_name self +:+ "'...")]).

Definition container_run {H} (self : DockerInstance) (w : world H) : world H :=
  shell_next in_start (run_line H self) (announced self w).

Definition run_file_text (self : DockerInstance) : string :=
  instance_name self +:+ String "010"%char "".

Definition touched {H} (self : DockerInstance) (w : world H) : world H :=
  let w2 := container_run self w in
  let t := now H (outside w2) in
  World (<[dazel_run_file self := File (run_file_text self) {| st_mtime := t; st_ctime := t |}]> (fs w2))
        (outside w2)
        (log w ++ [ Print ("Starting docker container '" +:+ instance_name self +:+ "'...");
                    System in_start (run_line H self) (shell_rc (run_line H self) (announced self w));
                    Wrote (dazel_run_file self) (run_file_text self);
                    Print "Done." ]).

(** [s.find(sep)], and the pieces of [s] around an index. *)
Fixpoint find (sep s : string) : option nat :=
  if Py.startswith sep s then Some 0%nat
  else match s with
       | "" => None
       | String _ s' => S <$> find sep s'
       end.

Fixpoint take (n : nat) (s : string) : string :=
  match n, s with
  | O, _ => ""
  | S _, "" => ""
  | S k, String a s' => String a (take k s')
  end.

(** The part of [s] before the first [sep], all of [s] if there is none;
    and the part after it. *)
Fixpoint upto (sep s : string) : string :=
  if Py.startswith sep s then ""
  else match s with
       | "" => ""
       | String a s' => String a (upto sep s')
       end.

Fixpoint after_first (sep s : string) : option string :=
  if Py.startswith sep s then Some (Py.drop (String.length sep) s)
  else match s with
       | "" => None
       | String _ s' => after_first sep s'
       end.

(** The cache root the resolver settles on: a non-empty configured root as
    it is; for an empty one, the text of the resolved build-output path
    before its first ["/_bazel"], then ["/_bazel"], then what follows up to
    the next ["/"]; nothing when the path has no ["/_bazel"]. *)
Definition settled_root (H : host) (self : DockerInstance) : string :=
  if decide (bazel_user_output_root self = "") then
    let out := real_bazelout H self in
    match find "/_bazel" out with
    | Some i =>
        take i out +:+ "/_bazel" +:+ hd "" (Py.split "/" (Py.drop (i + 7) out))
    | None => ""
    end
  else bazel_user_output_root self.

(** ** The shell and [grep], as far as [is_running] reaches them

    [os.system] hands its command line to [/bin/sh].  The command line of
    [is_running] pipes the listing of [docker ps] into [grep], with the
    instance name as the pattern and both output streams discarded.  What
    is described here is what the shell and [grep] make of that line when
    the name is a word a container can be called by; other command lines
    are left to the host. *)

Module Grep.

Definition newline : ascii := "010"%char.

(** One character of the pattern against one character of the input.
    [grep] reads its pattern as a basic regular expression: a period
    stands for any character of a line, a letter, digit, underscore or
    hyphen for itself. *)
Definition matches_char (p c : ascii) : bool :=
  if decide (p = "."%char) then negb (bool_decide (c = newline))
  else bool_decide (p = c).

(** The pattern matches at the very start of [s]. *)
Fixpoint matches_here (pat s : string) : bool :=
  match pat, s with
  | "", _ => true
  | String _ _, "" => false
  | String p pat', String c s' => matches_char p c && matches_here pat' s'
  end.

(** [grep] selects a line when the pattern matches somewhere in it.  No
    pattern character matches the end of a line, so a match never runs
    from one line into the next, and looking for a match anywhere in the
    text is looking for a line with a match. *)
Fixpoint selects (pat text : string) : bool :=
  matches_here pat text ||
  match text with
  | "" => false
  | String _ text' => selects pat text'
  end.

End Grep.

Module Posix.

(** What [/bin/sh] is on the host. *)
Inductive shell := bash | dash.

Definition alnum (c : ascii) : bool :=
  let n := N_of_ascii c in
  ((48 <=? n) && (n <=? 57) || (65 <=? n) && (n <=? 90)
   || (97 <=? n) && (n <=? 122))%N.

Definition name_char (c : ascii) : bool :=
  alnum c || bool_decide (c = "_"%char) || bool_decide (c = "."%char)
  || bool_decide (c = "-"%char).

Fixpoint all (P : ascii → bool) (s : string) : bool :=
  match s with
  | "" => true
  | String a s' => P a && all P s'
  end.

(** A word that starts with a letter or a digit and goes on with letters,
    digits, underscores, periods and hyphens.  Every name the container
    runtime accepts for a container is such a word; none of its characters
    means anything to the shell, and only the period means something to
    [grep]. *)
Definition container_name (s : string) : bool :=
  match s with
  | "" => false
  | String a s' => alnum a && all name_char s'
  end.

(** What [os.system] returns for the command line
    [docker ps | grep NAME >& /dev/null] when [docker ps] prints
    [listing].  [bash] sends both output streams of [grep] to [/dev/null]
    and ends with the exit code of [grep], the last command of the pipe: 0
    when a line was selected, 1 when none was.  [dash] does not know [>&]
    followed by a file name: it rejects the whole line as a syntax error
    and ends with exit code 2. *)
Definition system (which : shell) (listing cmd : string) : option Z :=
  let pat := upto " " (Py.drop 17 cmd) in
  if bool_decide (cmd = "docker ps | grep " +:+ pat +:+ " >& /dev/null")
     && container_name pat
  then Some (match which with
             | bash => if Grep.selects pat listing then exited 0 else exited 1
             | dash => exited 2
             end)
  else None.

(** The host runs the shell [which], and [ps x] is what [docker ps]
    prints when the outside world is [x]. *)
Definition implements (H : host) (which : shell) (ps : ext H → string) : Prop :=
  ∀ cmd fs x st, system which (ps x) cmd = Some st → (sh H cmd fs x).1 = st.

End Posix.

(** ** A concrete host

    A small container runtime, used to run the launcher on concrete inputs.
    [docker ps] lists one line per running container; the other commands
    return the wait statuses stored in the runtime. *)

Module Demo.

Record container := { cid : string; cimage : string; cname : string }.

Record runtime := {
  containers : list container;
  images : list string;
  build_rc : Z;
  pull_rc : Z;
  run_rc : Z;
  exec_rc : Z;
  clock : Z;
}.

Definition ps_line (c : container) : string :=
  cid c +:+ "   " +:+ cimage c +:+ "   /bin/bash   Up   " +:+ cname c.

(** What [docker ps] prints. *)
Definition ps_output (r : runtime) : string :=
  Py.join (String "010"%char "") (map ps_line (containers r)).

(** What [docker images] prints. *)
Definition images_output (r : runtime) : string :=
  Py.join (String "010"%char "") (images r).

Fixpoint strip_suffix (suf s : string) : string :=
  if decide (s = suf) then ""
  else match s with
       | "" => ""
       | String a s' => String a (strip_suffix suf s')
       end.

Definition grep (pattern text : string) : Z :=
  if Grep.selects pattern text then exited 0 else exited 1.

Definition tick (r : runtime) : runtime :=
  {| containers := containers r; images := images r;
     build_rc := build_rc r; pull_rc := pull_rc r; run_rc := run_rc r;
     exec_rc := exec_rc r; clock := clock r + 1 |}.

(** The redirection [>&] outside double quotes, which [dash] rejects. *)
Definition bashism (cmd : string) : bool := Py.contains " >& /dev/null" cmd.

Definition shell_as (which : Posix.shell) (cmd : string) (_ : gmap string node)
    (r : runtime) : Z * runtime :=
  let rc :=
    match Posix.system which (ps_output r) cmd with
    | Some st => st
    | None =>
        if match which with Posix.dash => bashism cmd | Posix.bash => false end
        then exited 2
        else if Py.startswith "docker images | grep " cmd then
          grep (strip_suffix " >& /dev/null" (Py.drop 21 cmd)) (images_output r)
        else if Py.startswith "docker build " cmd then build_rc r
        else if Py.startswith "docker pull " cmd then pull_rc r
        else if Py.startswith "docker stop " cmd then run_rc r
        else if Py.startswith "docker exec " cmd then exec_rc r
        else 32512
    end in
  (rc, tick r).

Definition shell := shell_as Posix.bash.

Definition host_as (which : Posix.shell) (env : list (string * string))
    (rc : list (string * value)) (real : string → string) : host :=
  {| ext := runtime;
     sh := shell_as which;
     now := clock;
     realpath := real;
     exec_py := λ _, Ok (list_to_map rc);
     environ := list_to_map env;
     getcwd := "/home/u/proj";
     argv := ["dazel"; "build"; "//..."] |}.

Definition host_with := host_as Posix.bash.

(** A host with an empty environment and no [.dazelrc] bindings. *)
Definition plain : host := host_with [] [] id.

Definition at_ (t : Z) : stat := {| st_mtime := t; st_ctime := t |}.

Definition di0 : DockerInstance :=
  {| instance_name := "dazel"; image_name := "dazel";
     dockerfile := "Dockerfile.dazel"; repository := "dazel";
     directory := "/home/u/proj"; command := "/bazel/output/bazel";
     bazel_user_output_root := "/home/u/.cache/bazel";
     dazel_run_file := ".dazel_run"; volumes := "" |}.

Definition quiet : runtime :=
  {| containers := []; images := []; build_rc := 0; pull_rc := 0;
     run_rc := 0; exec_rc := 0; clock := 100 |}.

(** *** A project with the default settings

    [bazel-out] is a link into the build cache of user [u]. *)

Definition resolve (p : string) : string :=
  if decide (p = "/home/u/proj/bazel-out/..")
  then "/home/u/.cache/bazel/_bazel_u/8f3c/execroot/proj"
  else p.

Definition project : host := host_with [("HOME", "/home/u")] [] resolve.

(** A checkout with a Dockerfile that was never provisioned. *)
Definition fresh : world project :=
  World (H:=project)
    {[ "Dockerfile.dazel" := File "FROM ubuntu" (at_ 5) ]} quiet [].

(** The instance [from_config] constructs there, and the world it
    leaves: the cache root has been created. *)
Definition constructed : DockerInstance :=
  {| instance_name := "dazel"; image_name := "dazel";
     dockerfile := "Dockerfile.dazel"; repository := "dazel";
     directory := "/home/u/proj"; command := "/bazel/output/bazel";
     bazel_user_output_root := "/home/u/.cache/bazel";
     dazel_run_file := ".dazel_run";
     volumes := serialise
       [ "/home/u/proj:/home/u/proj";
         "/home/u/.cache/bazel/_bazel_u/8f3c/execroot/proj"
           +:+ ":" +:+ "/home/u/.cache/bazel/_bazel_u/8f3c/execroot/proj" ] |}.

Definition ready : world project := (from_config fresh).2.


(** The same, with a Dockerfile that does not build. *)
Definition broken : world project :=
  World (H:=project)
    {[ "Dockerfile.dazel" := File "FORM ubuntu" (at_ 5) ]}
    {| containers := []; images := []; build_rc := 256; pull_rc := 0;
       run_rc := 0; exec_rc := 0; clock := 100 |} [].

(** No Dockerfile, no network, but the image is in the local store. *)
Definition offline : world project :=
  World (H:=project) ∅
    {| containers := [];
       images := ["dazel/dazel   latest   0a1b2c3d   2 weeks ago   1.2GB"];
       build_rc := 0; pull_rc := 256; run_rc := 0; exec_rc := 0;
       clock := 100 |} [].

Definition dazel_container : container :=
  {| cid := "77c1d0a2b3e4"; cimage := "dazel/dazel"; cname := "dazel" |}.

Definition up : runtime :=
  {| containers := [dazel_container]; images := ["dazel/dazel   latest"];
     build_rc := 0; pull_rc := 0; run_rc := 0; exec_rc := 0; clock := 100 |}.

(** Provisioned at time 9 from a Dockerfile of time 5; the container is
    up. *)
Definition provisioned : world project :=
  World (H:=project)
    {[ "Dockerfile.dazel" := File "FROM ubuntu" (at_ 5);
       ".dazel_run" := File ("dazel" +:+ String "010"%char "") (at_ 9) ]}
    up [].

(** The Dockerfile was edited at time 12. *)
Definition edited : world project :=
  World (H:=project)
    {[ "Dockerfile.dazel" := File "FROM debian" (at_ 12);
       ".dazel_run" := File ("dazel" +:+ String "010"%char "") (at_ 9) ]}
    up [].

(** The container was stopped. *)
Definition stopped : world project :=
  World (H:=project)
    {[ "Dockerfile.dazel" := File "FROM ubuntu" (at_ 5);
       ".dazel_run" := File ("dazel" +:+ String "010"%char "") (at_ 9) ]}
    quiet [].

(** The Dockerfile was last modified at time 5, before the run file was
    written, and had its permissions changed at time 12: its content is
    older than the run file, its [st_ctime] is newer. *)
Definition chmodded : world project :=
  World (H:=project)
    {[ "Dockerfile.dazel" := File "FROM ubuntu" {| st_mtime := 5; st_ctime := 12 |};
       ".dazel_run" := File ("dazel" +:+ String "010"%char "") (at_ 9) ]}
    up [].

(** No container is called [dazel]; an older one is called
    [dazel_old]. *)
Definition namesake : world project :=
  World (H:=project)
    {[ "Dockerfile.dazel" := File "FROM ubuntu" (at_ 5);
       ".dazel_run" := File ("dazel" +:+ String "010"%char "") (at_ 9) ]}
    {| containers := [ {| cid := "3f9a6b1c2d0e"; cimage := "ubuntu:22.04";
                          cname := "dazel_old" |} ];
       images := []; build_rc := 0; pull_rc := 0; run_rc := 0; exec_rc := 0;
       clock := 100 |} [].

(** *** A project that was never built, with the cache root set to the
    empty string: [bazel-out] does not exist yet. *)

Definition unbuilt_resolve (p : string) : string :=
  if decide (p = "/home/u/proj/bazel-out/..") then "/home/u/proj" else p.

Definition rootless : host :=
  host_with [("HOME", "/home/u"); ("DAZEL_BAZEL_USER_OUTPUT_ROOT", "")] []
            unbuilt_resolve.

Definition rootless_world : world rootless := World (H:=rootless) ∅ quiet [].

Definition unrooted : DockerInstance :=
  {| instance_name := "dazel"; image_name := "dazel";
     dockerfile := "Dockerfile.dazel"; repository := "dazel";
     directory := "/home/u/proj"; command := "/bazel/output/bazel";
     bazel_user_output_root := "";
     dazel_run_file := ".dazel_run"; volumes := "" |}.

(** *** A configured project

    The environment names the image and the command; the [.dazelrc]
    names the image, the repository and the volumes. *)

Definition rc_bindings : list (string * value) :=
  [ ("DAZEL_IMAGE_NAME", VStr "from_file");
    ("DAZEL_REPOSITORY", VStr "registry.example");
    ("DAZEL_VOLUMES", VStr "a:b, c:d") ].

Definition configured : host :=
  host_with [ ("HOME", "/home/u");
              ("DAZEL_IMAGE_NAME", "from_env");
              ("DAZEL_COMMAND", "/usr/bin/bazel");
              ("PATH", "/usr/bin") ]
            rc_bindings id.

Definition configured_world : world configured :=
  World (H:=configured)
    {[ "/home/u/proj/.dazelrc" := File "DAZEL_IMAGE_NAME = 'from_file'" (at_ 1) ]}
    quiet [].

(** *** A run file in a directory that does not exist *)






(** *** An instance name with a period in it

    The instance is called [my.app]; the only container running is
    somebody else's [my-app]. *)

Definition my_app : DockerInstance :=
  {| instance_name := "my.app"; image_name := "dazel";
     dockerfile := "Dockerfile.dazel"; repository := "dazel";
     directory := "/home/u/proj"; command := "/bazel/output/bazel";
     bazel_user_output_root := "/home/u/.cache/bazel";
     dazel_run_file := ".dazel_run"; volumes := "" |}.

Definition lookalike : world project :=
  World (H:=project)
    {[ "Dockerfile.dazel" := File "FROM ubuntu" (at_ 5);
       ".dazel_run" := File ("my.app" +:+ String "010"%char "") (at_ 9) ]}
    {| containers := [ {| cid := "5d0c7e1f9a2b"; cimage := "ubuntu:22.04";
                          cname := "my-app" |} ];
       images := []; build_rc := 0; pull_rc := 0; run_rc := 0; exec_rc := 0;
       clock := 100 |} [].

(** *** A host whose [/bin/sh] is [dash]

    Provisioned, and the container [dazel] is up. *)

Definition debian : host := host_as Posix.dash [("HOME", "/home/u")] [] resolve.

Definition debian_up : world debian :=
  World (H:=debian)
    {[ "Dockerfile.dazel" := File "FROM ubuntu" (at_ 5);
       ".dazel_run" := File ("dazel" +:+ String "010"%char "") (at_ 9) ]}
    up [].

End Demo.

(** ** Further statements about the launcher *)

(** Where [_config_from_file] looks for the configuration file: the
    environment variable [DAZEL_RC_FILE] if set, else [.dazelrc] in the
    directory [DAZEL_DIRECTORY] of the environment, else in the current
    directory. *)
Definition dazelrc_path (H : host) : string :=
  default
    (Py.path_join (default (DEFAULT_DIRECTORY H) (environ H !! "DAZEL_DIRECTORY"))
                  DAZEL_RC_FILE)
    (environ H !! "DAZEL_RC_FILE").

(** The two implicit mounts. *)
Definition implicit_mounts (H : host) (self : DockerInstance) : list string :=
  [ real_directory H self +:+ ":" +:+ real_directory H self;
    real_bazelout H self +:+ ":" +:+ real_bazelout H self ].

(** One word of a command line, in double quotes. *)
Definition quoted (s : string) : string := dq +:+ s +:+ dq.

(** One mount as a [docker run] option. *)
Definition mount_flag (m : string) : string := "-v " +:+ quoted m.

(** Worlds for the configuration file: one whose [.dazelrc] does not
    parse, one where [.dazelrc] is a directory. *)
Module DemoRc.

Definition garbled : host :=
  {| ext := Demo.runtime;
     sh := Demo.shell;
     now := Demo.clock;
     realpath := Demo.resolve;
     exec_py := λ _, Raise (ExecError "invalid syntax");
     environ := list_to_map [("HOME", "/home/u")];
     getcwd := "/home/u/proj";
     argv := ["dazel"; "build"; "//..."] |}.

Definition garbled_world : world garbled :=
  World (H:=garbled)
    {[ "/home/u/proj/.dazelrc" := File "DAZEL_IMAGE_NAME = " (Demo.at_ 1) ]}
    Demo.quiet [].

Definition rc_is_directory : world Demo.project :=
  World (H:=Demo.project)
    {[ "/home/u/proj/.dazelrc" := Dir (Demo.at_ 1) ]} Demo.quiet [].

(** The image builds, but the container cannot be run. *)
Definition unrunnable : world Demo.project :=
  World (H:=Demo.project)
    {[ "Dockerfile.dazel" := File "FROM ubuntu" (Demo.at_ 5) ]}
    {| Demo.containers := []; Demo.images := []; Demo.build_rc := 0;
       Demo.pull_rc := 0; Demo.run_rc := 32000; Demo.exec_rc := 0;
       Demo.clock := 100 |} [].

(** Provisioned, the container up, and the Dockerfile removed since. *)
Definition dockerfile_removed : world Demo.project :=
  World (H:=Demo.project)
    {[ ".dazel_run" := File ("dazel" +:+ String "010"%char "") (Demo.at_ 9) ]}
    Demo.up [].

(** Provisioned in the same instant the Dockerfile was last changed. *)
Definition same_instant : world Demo.project :=
  World (H:=Demo.project)
    {[ "Dockerfile.dazel" := File "FROM ubuntu" (Demo.at_ 9);
       ".dazel_run" := File ("dazel" +:+ String "010"%char "") (Demo.at_ 9) ]}
    Demo.up [].

End DemoRc.

(** The call sites of the commands in a stretch of log, in order. *)
Definition sites_of (evs : list event) : list site :=
  omap (λ e, match e with System s _ _ => Some s | _ => None end) evs.

(** The orders in which [start] can run commands, each with whether
    [start] then returned 0. *)
Definition start_orders : list (list site * bool) :=
  [ ([], false);
    ([in_build], false);
    ([in_build; in_start], false);
    ([in_build; in_start], true);
    ([in_pull; in_start], false);
    ([in_pull; in_start], true);
    ([in_pull; in_image_exists], false);
    ([in_pull; in_image_exists; in_start], false);
    ([in_pull; in_image_exists; in_start], true) ].

(** The orders in which a whole run can run commands: the question
    [is_running] is asked at most once and first; the command is forwarded
    at most once and last, directly after the question or after a
    provisioning that ended with the container run. *)
Definition command_orders : list (list site) :=
  [in_is_running; in_send_command]
  :: flat_map
       (λ '(steps, ok),
          let steps := if (ok : bool) then steps ++ [in_send_command] else steps in
          [steps; in_is_running :: steps])
       start_orders.

Definition outcome_is_zero (r : outcome Z) : bool :=
  match r with Ok 0 => true | _ => false end.

(** * Properties *)

(** ** The launcher on concrete inputs *)

Example split_commas :
  map Py.strip (Py.split "," "a:b, c:d") = ["a:b"; "c:d"].
Proof. reflexivity. Qed.

Example split_trailing_comma : Py.split "," "a:b," = ["a:b"; ""].
Proof. reflexivity. Qed.

Example split_cache_path :
  Py.split "/_bazel" "/home/u/.cache/bazel/_bazel_u/8f3c/execroot/proj"
  = ["/home/u/.cache/bazel"; "_u/8f3c/execroot/proj"].
Proof. reflexivity. Qed.

Example ancestors_of_cache_root :
  FS.ancestors "/home/u/.cache/bazel" = ["/home"; "/home/u"; "/home/u/.cache"].
Proof. reflexivity. Qed.

Example build_line_default :
  _build_line Demo.di0
  = "docker build -t dazel/dazel -f Dockerfile.dazel /home/u/proj".
Proof. reflexivity. Qed.

Example forwarded_line_default :
  send_command_line Demo.di0 ["build"; "//..."]
  = "docker exec -it dazel /bazel/output/bazel --output_user_root=/home/u/.cache/bazel "
    +:+ dq +:+ "build" +:+ dq +:+ " " +:+ dq +:+ "//..." +:+ dq.
Proof. reflexivity. Qed.

(** A first run in a checkout with a Dockerfile: the cache root is created,
    the image built, the container run, the run file written and the
    command forwarded. *)
Example first_run_log :
  log (main Demo.fresh).2
  = [ MadeDirs "/home/u/.cache/bazel";
      System in_build (_build_line Demo.constructed) 0;
      Print "Starting docker container 'dazel'...";
      System in_start (run_line Demo.project Demo.constructed) 0;
      Wrote ".dazel_run" ("dazel" +:+ String "010"%char "");
      Print "Done.";
      System in_send_command
        (send_command_line Demo.constructed ["build"; "//..."]) 0 ].
Proof. vm_compute. reflexivity. Qed.

(** A later run with the container up: one question, then the command. *)
Example later_run_log :
  log (run Demo.constructed Demo.provisioned).2
  = [ System in_is_running "docker ps | grep dazel >& /dev/null" 0;
      System in_send_command
        (send_command_line Demo.constructed ["build"; "//..."]) 0 ].
Proof. vm_compute. reflexivity. Qed.

(** ** Reasoning about the monad *)

Section MonadFacts.
Context {H : host}.

Lemma bind_eq {A B} (m : M H A) (f : A → M H B) (w : world H) :
  (m ≫= f) w =
  match m w with
  | (Ok a, w') => f a w'
  | (Raise e, w') => (Raise e, w')
  end.
Proof. reflexivity. Qed.

Lemma bind_Ok {A B} (m : M H A) (f : A → M H B) (w w' : world H) (b : B) :
  (m ≫= f) w = (Ok b, w') →
  ∃ a w1, m w = (Ok a, w1) ∧ f a w1 = (Ok b, w').
Proof.
  rewrite bind_eq. destruct (m w) as [[a|e] w1]; [eauto | discriminate].
Qed.

Lemma bind_step {A B} (m : M H A) (f : A → M H B) (w w1 : world H) (a : A) :
  m w = (Ok a, w1) → (m ≫= f) w = f a w1.
Proof. intros E. by rewrite bind_eq, E. Qed.

Lemma bind_raise {A B} (m : M H A) (f : A → M H B) (w w1 : world H) e :
  m w = (Raise e, w1) → (m ≫= f) w = (Raise e, w1).
Proof. intros E. by rewrite bind_eq, E. Qed.

Lemma bind_Raise {A B} (m : M H A) (f : A → M H B) (w w' : world H) e :
  (m ≫= f) w = (Raise e, w') →
  m w = (Raise e, w') ∨ ∃ a w1, m w = (Ok a, w1) ∧ f a w1 = (Raise e, w').
Proof.
  rewrite bind_eq. destruct (m w) as [[a|e'] w1]; [eauto|].
  intros E. left. by simplify_eq.
Qed.

Lemma ret_eq {A} (a : A) (w : world H) : (mret a : M H A) w = (Ok a, w).
Proof. reflexivity. Qed.

End MonadFacts.

(** ** Configuration precedence *)

Section Configuration.
Context {H : host}.

Lemma key_prefix (s : setting) : Py.startswith "DAZEL_" (key s) = true.
Proof. by destruct s. Qed.

Lemma environment_lookup (k : string) :
  Py.startswith "DAZEL_" k = true →
  _config_from_environment H !! k = VStr <$> environ H !! k.
Proof.
  intros Hk. unfold _config_from_environment.
  rewrite lookup_fmap, map_lookup_filter.
  destruct (environ H !! k) as [x|]; simpl; [|done].
  case_guard as Hg; simpl in *; [done|]. rewrite Hk in Hg. by destruct Hg.
Qed.

Lemma get_update (file : gmap string value) (s : setting) :
  get (update file (_config_from_environment H)) (key s) (builtin_default H s)
  = precedence H file s.
Proof.
  unfold get, update, precedence.
  rewrite lookup_union, environment_lookup by apply key_prefix.
  destruct (environ H !! key s), (file !! key s); done.
Qed.

Lemma constructor_args_get (config : gmap string value) (s : setting) :
  arg s (constructor_args H config) = get config (key s) (builtin_default H s).
Proof. by destruct s. Qed.

Lemma str_arg_Ok s a (w w' : world H) x :
  str_arg s a w = (Ok x, w') → arg s a = VStr x ∧ w' = w.
Proof.
  unfold str_arg. destruct (arg s a); cbv; intros E; by simplify_eq.
Qed.

Lemma _add_volumes_keeps self vols (w w' : world H) di :
  _add_volumes self vols w = (Ok di, w') →
  ∀ s v, stored s di = Some v → stored s self = Some v.
Proof.
  unfold _add_volumes. intros E.
  apply bind_Ok in E as (mounts & w1 & _ & E).
  apply bind_Ok in E as (root & w2 & _ & E).
  apply bind_Ok in E as (d & w3 & _ & E).
  apply bind_Ok in E as (u & w4 & _ & E).
  rewrite ret_eq in E. simplify_eq. by intros [].
Qed.

Lemma __init___stored a (w w' : world H) di :
  __init__ a w = (Ok di, w') →
  ∀ s v, stored s di = Some v → v = arg s a.
Proof.
  unfold __init__. intros E.
  repeat (apply bind_Ok in E as (? & ? & [? ->]%str_arg_Ok & E)).
  intros s v Hs. eapply _add_volumes_keeps in Hs; [|exact E].
  destruct s; simpl in *; simplify_eq; congruence.
Qed.

End Configuration.

(** C2. For every configuration key, the value handed to the
    [DockerInstance] constructor is the environment variable of that name if
    there is one, else the binding of the configuration file if there is
    one, else the built-in default; and the scalar settings of the
    constructed instance are exactly these values. *)
Theorem config_precedence (H : host) (w w' : world H) (file : gmap string value) :
  _config_from_file w = (Ok file, w') →
  let config := update file (_config_from_environment H) in
  from_config w = __init__ (constructor_args H config) w'
  ∧ (∀ s, arg s (constructor_args H config) = precedence H file s)
  ∧ (∀ di w'', from_config w = (Ok di, w'') →
       ∀ s v, stored s di = Some v → v = precedence H file s).
Proof.
  intros E config.
  assert (from_config w = __init__ (constructor_args H config) w') as E'.
  { unfold from_config. by rewrite (bind_step _ _ _ _ _ E). }
  assert (∀ s, arg s (constructor_args H config) = precedence H file s) as P.
  { intros s. unfold config. by rewrite constructor_args_get, get_update. }
  split_and!; [done | done |].
  intros di w'' E'' s v Hs. rewrite E' in E''.
  rewrite <- P. by eapply __init___stored.
Qed.

Lemma config_precedence_witness :
  _config_from_file Demo.configured_world
    = (Ok (list_to_map Demo.rc_bindings), Demo.configured_world)
  ∧ (∀ s, arg s (constructor_args Demo.configured
                   (update (list_to_map Demo.rc_bindings)
                           (_config_from_environment Demo.configured)))
          = precedence Demo.configured (list_to_map Demo.rc_bindings) s).
Proof.
  assert (_config_from_file Demo.configured_world
          = (Ok (list_to_map Demo.rc_bindings), Demo.configured_world)) as E
    by (vm_compute; reflexivity).
  split; [exact E|].
  exact (proj1 (proj2 (config_precedence Demo.configured _ _ _ E))).
Defined.

(** ** The volume resolver *)

Section Volumes.
Context {H : host}.

Lemma check_volumes_total vols (w : world H) :
  check_volumes vols w =
  match vols with
  | VStr s => (Ok (VList (map Py.strip (Py.split "," s))), w)
  | _ =>
      if truthy vols
      then (Raise (AttributeError "'module' object has no attribute 'Iterable'"), w)
      else (Ok vols, w)
  end.
Proof.
  destruct vols as [s|l|n|]; try reflexivity.
  - by destruct l.
  - unfold check_volumes. by destruct (truthy (VInt n)).
Qed.

Lemma derive_output_root_raises self (w w' : world H) e :
  derive_output_root self w = (Raise e, w') → e = IndexError.
Proof.
  unfold derive_output_root, raise.
  destruct (negb _ && _); [|by rewrite ret_eq].
  destruct (Py.split "/_bazel" _) as [|? [|? ?]];
    [by (intros; simplify_eq)..|].
  destruct (Py.split "/" _); rewrite ?ret_eq; intros; by simplify_eq.
Qed.

Lemma os_makedirs_raises p (w w' : world H) e :
  os_makedirs p w = (Raise e, w') → e = OSError p.
Proof.
  unfold os_makedirs. destruct (FS.makedirs _ _ _); intros; by simplify_eq.
Qed.

(** The test of line 133 never gets as far as its [raise]. *)
Lemma _add_volumes_no_RuntimeError self vols (w : world H) msg :
  (_add_volumes self vols w).1 ≠ Raise (RuntimeError msg).
Proof.
  destruct (_add_volumes self vols w) as [o w'] eqn:E. simpl. intros ->.
  unfold _add_volumes in E.
  apply bind_Raise in E as [E|(mounts & w1 & _ & E)].
  { unfold mount_list in E.
    apply bind_Raise in E as [E|(v & w1 & _ & E)].
    - rewrite check_volumes_total in E.
      destruct vols as [?|[|??]|n|]; simpl in E; try done.
      by destruct (n =? 0).
    - by destruct v. }
  apply bind_Raise in E as [E|(root & w2 & _ & E)].
  { by apply derive_output_root_raises in E. }
  apply bind_Raise in E as [E|(d & w3 & _ & E)]; [done|].
  apply bind_Raise in E as [E|(u & w4 & _ & E)]; [|done].
  destruct (negb d); [by apply os_makedirs_raises in E|done].
Qed.

End Volumes.


(** C7 (as the code behaves). An integer volumes setting never produces the
    configuration error: a non-zero integer dies in the look-up of
    [types.Iterable], which the module [types] does not bind, and zero
    passes the test and dies in [+=]. *)
Theorem volumes_integer (H : host) (self : DockerInstance) (w : world H) (n : Z) :
  _add_volumes self (VInt n) w =
  (Raise (if n =? 0
          then TypeError "unsupported operand type(s) for +="
          else AttributeError "'module' object has no attribute 'Iterable'"), w).
Proof.
  unfold _add_volumes, mount_list. rewrite !bind_eq, check_volumes_total.
  simpl. by destruct (n =? 0).
Qed.

(** ** Provisioning *)

Section Provisioning.
Context {H : host}.

Lemma _build_present self (w : world H) :
  FS.exists_ (fs w) (dockerfile self) = true →
  _build self w = os_system in_build (_build_line self) w.
Proof. intros E. unfold _build. rewrite bind_eq. cbn. by rewrite E. Qed.

Lemma _pull_named self (w : world H) :
  repository self ≠ "" →
  _pull self w = os_system in_pull (_pull_line self) w.
Proof. intros E. unfold _pull. simpl. by destruct (decide _). Qed.

Lemma _pull_unnamed self (w : world H) :
  repository self = "" →
  _pull self w =
  (Raise (RuntimeError "No repository to pull the dazel image from."), w).
Proof. intros E. unfold _pull. simpl. by destruct (decide _). Qed.

Lemma make_image_present self (w : world H) :
  FS.exists_ (fs w) (dockerfile self) = true →
  make_image self w = os_system in_build (_build_line self) w.
Proof.
  intros E. unfold make_image. rewrite bind_eq. cbn. rewrite E.
  by apply _build_present.
Qed.

Lemma make_image_absent self (w : world H) :
  FS.exists_ (fs w) (dockerfile self) = false →
  make_image self w =
  (rc ← _pull self;
   if negb (rc =? 0)
   then have ← _image_exists self; if (have : bool) then mret 0 else mret rc
   else mret rc) w.
Proof. intros E. unfold make_image. rewrite bind_eq. cbn. by rewrite E. Qed.

Lemma launch_raises self (w w' : world H) e :
  launch self w = (Raise e, w') → e = IOError (dazel_run_file self).
Proof.
  unfold launch. intros E.
  apply bind_Raise in E as [E|(? & w1 & _ & E)]; [done|].
  apply bind_Raise in E as [E|(rc & w2 & _ & E)]; [done|].
  destruct (negb _); [done|].
  apply bind_Raise in E as [E|(? & w3 & _ & E)].
  - unfold write_file in E. destruct (FS.writable _ _); by simplify_eq.
  - apply bind_Raise in E as [E|(? & w4 & _ & E)]; done.
Qed.

Lemma start_raises self (w w' : world H) e :
  start self w = (Raise e, w') →
  e = RuntimeError "No repository to pull the dazel image from."
  ∨ e = IOError (dazel_run_file self).
Proof.
  unfold start. intros E.
  apply bind_Raise in E as [E|(rc & w1 & _ & E)].
  - left. destruct (FS.exists_ (fs w) (dockerfile self)) eqn:Ex.
    + by rewrite make_image_present in E.
    + rewrite make_image_absent in E by done.
      apply bind_Raise in E as [E|(rc & w1 & _ & E)].
      * destruct (decide (repository self = "")) as [R|R].
        -- rewrite _pull_unnamed in E by done. by simplify_eq.
        -- by rewrite _pull_named in E.
      * destruct (negb _); [|done].
        apply bind_Raise in E as [E|(have & w2 & _ & E)]; [done|].
        by destruct have.
  - destruct (negb _); [done|]. right. by eapply launch_raises.
Qed.

Lemma start_present self (w : world H) :
  FS.exists_ (fs w) (dockerfile self) = true →
  let rc := shell_rc (_build_line self) w in
  let w1 := shell_next in_build (_build_line self) w in
  make_image self w = (Ok rc, w1)
  ∧ start self w = if rc =? 0 then launch self w1 else (Ok rc, w1).
Proof.
  intros E rc w1.
  assert (make_image self w = (Ok rc, w1)) as Em by by rewrite make_image_present.
  split; [done|]. unfold start. rewrite (bind_step _ _ _ _ _ Em).
  by destruct (rc =? 0).
Qed.

Lemma start_absent self (w : world H) :
  FS.exists_ (fs w) (dockerfile self) = false → repository self ≠ "" →
  let rc := shell_rc (_pull_line self) w in
  let w1 := shell_next in_pull (_pull_line self) w in
  let have := shell_rc (_image_exists_line self) w1 =? 0 in
  let w2 := shell_next in_image_exists (_image_exists_line self) w1 in
  make_image self w
    = (if rc =? 0 then (Ok rc, w1)
       else if have then (Ok 0, w2) else (Ok rc, w2))
  ∧ start self w
    = if rc =? 0 then launch self w1
      else if have then launch self w2 else (Ok rc, w2).
Proof.
  intros E R rc w1 have w2.
  assert (make_image self w
          = (if rc =? 0 then (Ok rc, w1)
             else if have then (Ok 0, w2) else (Ok rc, w2))) as Em.
  { rewrite make_image_absent by done.
    rewrite bind_eq, _pull_named by done. unfold os_system. fold rc w1.
    destruct (rc =? 0) eqn:Erc; [done|]. cbn [negb].
    unfold _image_exists. rewrite !bind_eq. unfold os_system. fold w2.
    rewrite ret_eq. fold have. by destruct have. }
  split; [done|]. unfold start. rewrite bind_eq, Em.
  destruct (rc =? 0) eqn:Erc; [by rewrite Erc|].
  destruct have; [done|]. by rewrite Erc.
Qed.

Lemma start_unnamed self (w : world H) :
  FS.exists_ (fs w) (dockerfile self) = false → repository self = "" →
  start self w
    = (Raise (RuntimeError "No repository to pull the dazel image from."), w).
Proof.
  intros E R. unfold start. rewrite bind_eq, make_image_absent by done.
  by rewrite bind_eq, _pull_unnamed.
Qed.

End Provisioning.

(** C10. [start] never ends in the error [_build] raises for a missing
    Dockerfile; and whenever the Dockerfile exists, [_build] runs the build
    command and returns what the command returned. *)
Theorem build_guard_unreachable (H : host) (self : DockerInstance) (w : world H) :
  (start self w).1 ≠ Raise (RuntimeError "No Dockerfile to build the dazel image from.")
  ∧ (FS.exists_ (fs w) (dockerfile self) = true →
     _build self w = (Ok (shell_rc (_build_line self) w),
                      shell_next in_build (_build_line self) w)).
Proof.
  split.
  - destruct (start self w) as [[rc|e] w'] eqn:E; [done|]. simpl.
    apply start_raises in E as [->| ->]; done.
  - apply _build_present.
Qed.

Lemma build_guard_unreachable_witness :
  FS.exists_ (fs Demo.fresh) (dockerfile Demo.di0) = true
  ∧ _build Demo.di0 Demo.fresh
    = (Ok (shell_rc (_build_line Demo.di0) Demo.fresh),
       shell_next in_build (_build_line Demo.di0) Demo.fresh).
Proof.
  split; [reflexivity|].
  apply (proj2 (build_guard_unreachable Demo.project Demo.di0 Demo.fresh)).
  reflexivity.
Defined.



(** ** What a run writes to the log *)

Ltac no_such_event :=
  let Hin := fresh in
  intros Hin;
  repeat (apply elem_of_cons in Hin as [Hin|Hin]; [discriminate Hin|]);
  by apply elem_of_nil in Hin.

Section Traces.
Context {H : host}.

Lemma new_events_app (w w' : world H) evs :
  log w' = log w ++ evs → new_events w w' = evs.
Proof. intros E. unfold new_events. by rewrite E, drop_app_length. Qed.

Lemma log_shell_next s cmd (w : world H) :
  log (shell_next s cmd w) = log w ++ [System s cmd (shell_rc cmd w)].
Proof. reflexivity. Qed.

Lemma str_arg_world s a (w w' : world H) r :
  str_arg s a w = (r, w') → w' = w.
Proof. unfold str_arg. destruct (arg s a); cbv; intros; by simplify_eq. Qed.

Lemma mount_list_world self vols (w w' : world H) r :
  mount_list self vols w = (r, w') → w' = w.
Proof.
  unfold mount_list. rewrite bind_eq, check_volumes_total.
  destruct vols as [?|[|??]|n|]; simpl; try destruct (n =? 0); simpl;
    cbv [iadd mret M_ret raise]; intros; by simplify_eq.
Qed.

Lemma derive_output_root_world self (w w' : world H) r :
  derive_output_root self w = (r, w') → w' = w.
Proof.
  unfold derive_output_root, raise.
  destruct (negb _ && _); [|rewrite ret_eq; intros; by simplify_eq].
  destruct (Py.split "/_bazel" _) as [|? [|? ?]];
    [by (intros; simplify_eq)..|].
  destruct (Py.split "/" _); rewrite ?ret_eq; intros; by simplify_eq.
Qed.

Lemma _add_volumes_log self vols (w w' : world H) r :
  _add_volumes self vols w = (r, w') →
  ∃ evs, log w' = log w ++ evs ∧ ∀ s c rc, System s c rc ∉ evs.
Proof.
  unfold _add_volumes. rewrite bind_eq.
  destruct (mount_list self vols w) as [[mounts|e] w1] eqn:E1;
    apply mount_list_world in E1 as ->;
    [|intros; simplify_eq; exists []; rewrite app_nil_r; split; [done|intros; no_such_event]].
  rewrite bind_eq.
  destruct (derive_output_root self w) as [[root|e] w1] eqn:E2;
    apply derive_output_root_world in E2 as ->;
    [|intros; simplify_eq; exists []; rewrite app_nil_r; split; [done|intros; no_such_event]].
  rewrite bind_eq. unfold os_path_isdir. cbn [bazel_user_output_root].
  destruct (FS.isdir (fs w) root); cbn [negb]; rewrite bind_eq, ?ret_eq.
  - intros; simplify_eq. exists []. rewrite app_nil_r. split; [done|intros; no_such_event].
  - unfold os_makedirs. destruct (FS.makedirs _ _ _); rewrite ?ret_eq; intros; simplify_eq.
    + exists [MadeDirs root]. split; [done|intros; no_such_event].
    + exists []. rewrite app_nil_r. split; [done|intros; no_such_event].
Qed.

Lemma _config_from_file_world (w w' : world H) r :
  _config_from_file w = (r, w') → w' = w.
Proof.
  unfold _config_from_file. rewrite bind_eq. unfold os_path_exists.
  destruct (FS.exists_ _ _); cbn [negb]; [|rewrite ret_eq; intros; by simplify_eq].
  rewrite bind_eq. unfold read_file, lift.
  destruct (fs w !! _) as [[]|]; intros; by simplify_eq.
Qed.

Lemma __init___log a (w w' : world H) r :
  __init__ a w = (r, w') →
  ∃ evs, log w' = log w ++ evs ∧ ∀ s c rc, System s c rc ∉ evs.
Proof.
  unfold __init__.
  repeat (rewrite bind_eq;
    lazymatch goal with
    | |- context [str_arg ?s a w] =>
        let E := fresh in
        destruct (str_arg s a w) as [[?|?] ?] eqn:E;
        apply str_arg_world in E as ->;
        [|intros; simplify_eq; exists []; rewrite app_nil_r;
          split; [done|intros; no_such_event]]
    end).
  apply _add_volumes_log.
Qed.

Lemma from_config_log (w w' : world H) r :
  from_config w = (r, w') →
  ∃ evs, log w' = log w ++ evs ∧ ∀ s c rc, System s c rc ∉ evs.
Proof.
  unfold from_config. rewrite bind_eq.
  destruct (_config_from_file w) as [[file|e] w1] eqn:E;
    apply _config_from_file_world in E as ->.
  - apply __init___log.
  - intros; simplify_eq. exists []. rewrite app_nil_r.
    split; [done|intros; no_such_event].
Qed.

End Traces.

(** ** The staleness test *)

Section Staleness.
Context {H : host}.

Lemma stale_eq di (w : world H) :
  stale di w = (Ok (needs_provisioning di w), after_test di w).
Proof.
  unfold stale, needs_provisioning, after_test, reported_running.
  rewrite bind_eq. unfold os_path_exists at 1. unfold FS.exists_.
  destruct (fs w !! dazel_run_file di) as [m|] eqn:Em; cbn [negb]; [|done].
  rewrite bind_eq. unfold is_running. rewrite bind_eq. unfold os_system.
  rewrite ret_eq. destruct (shell_rc _ w =? 0); cbn [negb]; [|done].
  rewrite bind_eq. unfold os_path_exists, FS.exists_. cbn [fs shell_next].
  destruct (fs w !! dockerfile di) as [d|] eqn:Ed; [|done].
  rewrite bind_eq. unfold os_path_getctime at 1. cbn [fs shell_next]. rewrite Ed.
  rewrite bind_eq. unfold os_path_getctime. cbn [fs shell_next]. by rewrite Em.
Qed.

Lemma run_eq di (w : world H) :
  run di w =
  if needs_provisioning di w
  then provision_then_forward di (after_test di w)
  else send_command di (tail (argv H)) (after_test di w).
Proof.
  unfold run. rewrite bind_eq, stale_eq. by destruct (needs_provisioning di w).
Qed.

Lemma after_test_fs di (w : world H) : fs (after_test di w) = fs w.
Proof. unfold after_test. by destruct (fs w !! _). Qed.

Lemma after_test_log di (w : world H) :
  ∃ evs, log (after_test di w) = log w ++ evs
         ∧ ∀ s c rc, System s c rc ∈ evs → s = in_is_running.
Proof.
  unfold after_test. destruct (fs w !! _).
  - eexists. split; [apply log_shell_next|].
    intros s c rc [E|E%elem_of_nil]%elem_of_cons; [by simplify_eq|done].
  - exists []. rewrite app_nil_r. split; [done|]. by intros s c rc E%elem_of_nil.
Qed.

End Staleness.

Lemma staleness_not_by_mtime :
  ∃ m d,
    fs Demo.chmodded !! dazel_run_file Demo.di0 = Some m
    ∧ fs Demo.chmodded !! dockerfile Demo.di0 = Some d
    ∧ reported_running Demo.di0 Demo.chmodded = true
    ∧ st_mtime (node_stat d) < st_mtime (node_stat m)
    ∧ run Demo.di0 Demo.chmodded
      = provision_then_forward Demo.di0
          (shell_next in_is_running (is_running_line Demo.di0) Demo.chmodded)
    ∧ System in_build (_build_line Demo.di0) 0
        ∈ new_events Demo.chmodded (run Demo.di0 Demo.chmodded).2
    ∧ run Demo.di0 Demo.chmodded
      ≠ send_command Demo.di0 (tail (argv Demo.project))
          (shell_next in_is_running (is_running_line Demo.di0) Demo.chmodded).
Proof.
  eexists _, _. split_and!; try reflexivity.
  - vm_compute. right. left.
  - intros E. apply (f_equal (λ x, length (log x.2))) in E. by vm_compute in E.
Qed.

(** C1 (amended). The staleness test of [main], with the times being the
    change times [os.path.getctime] reads: without a run file the instance
    is provisioned; with a run file and a container reported not running it
    is provisioned; with a run file, a container reported running and a
    Dockerfile whose change time is older than the run file's, provisioning
    is skipped and the command is forwarded at once; with a Dockerfile whose
    change time is newer than the run file's it is provisioned. *)
Theorem staleness_by_change_time (H : host) (di : DockerInstance) (w : world H) :
  let forward := send_command di (tail (argv H)) in
  let asked := shell_next in_is_running (is_running_line di) w in
  (fs w !! dazel_run_file di = None → run di w = provision_then_forward di w)
  ∧ (is_Some (fs w !! dazel_run_file di) → reported_running di w = false →
       run di w = provision_then_forward di asked)
  ∧ (∀ m d, fs w !! dazel_run_file di = Some m → fs w !! dockerfile di = Some d →
       reported_running di w = true →
       st_ctime (node_stat d) < st_ctime (node_stat m) →
       run di w = forward asked)
  ∧ (∀ m d, fs w !! dazel_run_file di = Some m → fs w !! dockerfile di = Some d →
       st_ctime (node_stat m) < st_ctime (node_stat d) →
       run di w = provision_then_forward di asked).
Proof.
  intros forward asked. rewrite run_eq. unfold needs_provisioning, after_test.
  split_and!.
  - by intros ->.
  - intros [m ->] ->. done.
  - intros m d -> -> -> Hlt.
    by destruct (Z.ltb_spec (st_ctime (node_stat m)) (st_ctime (node_stat d))); [lia|].
  - intros m d -> -> Hlt. destruct (reported_running di w); [|done].
    by destruct (Z.ltb_spec (st_ctime (node_stat m)) (st_ctime (node_stat d))); [|lia].
Qed.

Lemma staleness_by_change_time_witness :
  (fs Demo.fresh !! dazel_run_file Demo.di0 = None
   ∧ run Demo.di0 Demo.fresh = provision_then_forward Demo.di0 Demo.fresh)
  ∧ (is_Some (fs Demo.stopped !! dazel_run_file Demo.di0)
     ∧ reported_running Demo.di0 Demo.stopped = false
     ∧ run Demo.di0 Demo.stopped
       = provision_then_forward Demo.di0
           (shell_next in_is_running (is_running_line Demo.di0) Demo.stopped))
  ∧ (reported_running Demo.di0 Demo.provisioned = true
     ∧ (5 < 9)
     ∧ run Demo.di0 Demo.provisioned
       = send_command Demo.di0 (tail (argv Demo.project))
           (shell_next in_is_running (is_running_line Demo.di0) Demo.provisioned))
  ∧ ((9 < 12)
     ∧ run Demo.di0 Demo.edited
       = provision_then_forward Demo.di0
           (shell_next in_is_running (is_running_line Demo.di0) Demo.edited)).
Proof.
  split_and!.
  - reflexivity.
  - exact (proj1 (staleness_by_change_time Demo.project Demo.di0 Demo.fresh) eq_refl).
  - eexists. reflexivity.
  - reflexivity.
  - refine (proj1 (proj2 (staleness_by_change_time Demo.project Demo.di0 Demo.stopped))
              _ eq_refl).
    eexists. reflexivity.
  - reflexivity.
  - lia.
  - refine (proj1 (proj2 (proj2
              (staleness_by_change_time Demo.project Demo.di0 Demo.provisioned)))
              _ _ eq_refl eq_refl eq_refl _).
    simpl. lia.
  - lia.
  - refine (proj2 (proj2 (proj2
              (staleness_by_change_time Demo.project Demo.di0 Demo.edited)))
              _ _ eq_refl eq_refl _).
    simpl. lia.
Defined.

(** ** The steps of a whole run *)

Section Steps.
Context {H : host}.

Lemma launch_eq self (w : world H) :
  launch self w =
  let rc := shell_rc (run_line H self) (announced self w) in
  if rc =? 0 then
    if FS.writable (fs w) (dazel_run_file self)
    then (Ok rc, touched self w)
    else (Raise (IOError (dazel_run_file self)), container_run self w)
  else (Ok rc, container_run self w).
Proof.
  unfold launch, print, emit, os_system. rewrite !bind_eq.
  fold (announced self w). fold (container_run self w).
  cbn zeta. destruct (shell_rc _ (announced self w) =? 0); [|done].
  cbn [negb]. rewrite bind_eq. unfold write_file.
  change (fs (container_run self w)) with (fs w).
  destruct (FS.writable (fs w) (dazel_run_file self)); [|done].
  rewrite !bind_eq, ret_eq. unfold touched, run_file_text.
  cbn [log container_run shell_next announced fs outside].
  by rewrite <- !app_assoc.
Qed.

(** [launch] runs the container and nothing else. *)
Lemma launch_log self (w w' : world H) r :
  launch self w = (r, w') →
  ∃ evs, log w' = log w ++ evs
         ∧ ∀ s c rc, System s c rc ∈ evs → s = in_start.
Proof.
  rewrite launch_eq. cbn zeta.
  assert (log (container_run self w)
          = log w ++ [ Print ("Starting docker container '" +:+ instance_name self +:+ "'...");
                       System in_start (run_line H self)
                         (shell_rc (run_line H self) (announced self w)) ]) as Lc.
  { unfold container_run. rewrite log_shell_next. cbn [log announced].
    by rewrite <- app_assoc. }
  destruct (_ =? 0); [destruct (FS.writable _ _)|]; intros ?; simplify_eq;
    (eexists; split; [first [exact Lc | reflexivity]|]);
    intros s c rc Hin;
    repeat (apply elem_of_cons in Hin as [Hin|Hin]; [by simplify_eq|]);
    by apply elem_of_nil in Hin.
Qed.

(** What [start] logs: with a Dockerfile, the build and then, after a
    successful build only, the steps of [launch]; without one, no build at
    all. *)
Lemma start_log self (w w' : world H) r :
  start self w = (r, w') →
  ∃ evs, log w' = log w ++ evs
    ∧ (∀ c rc, System in_build c rc ∈ evs → rc ≠ 0 →
         r = Ok rc ∧ evs = [System in_build c rc])
    ∧ (∀ c rc, System in_send_command c rc ∉ evs).
Proof.
  intros E. destruct (FS.exists_ (fs w) (dockerfile self)) eqn:Ex.
  - destruct (start_present self w Ex) as [_ Es]. rewrite Es in E. clear Es.
    destruct (Z.eqb_spec (shell_rc (_build_line self) w) 0) as [E0|E0].
    + apply launch_log in E as (evs & El & Hs).
      exists (System in_build (_build_line self) (shell_rc (_build_line self) w) :: evs).
      split_and!.
      * rewrite El, log_shell_next, <- app_assoc. reflexivity.
      * intros c rc [Hin|Hin]%elem_of_cons Hrc; [by simplify_eq|].
        by apply Hs in Hin.
      * intros c rc [Hin|Hin]%elem_of_cons; [done|]. by apply Hs in Hin.
    + simplify_eq. eexists. split_and!; [apply log_shell_next| |].
      * intros c rc [Hin|Hin%elem_of_nil]%elem_of_cons _; [|done]. by simplify_eq.
      * intros c rc. no_such_event.
  - destruct (decide (repository self = "")) as [R|R].
    { rewrite (start_unnamed self w Ex R) in E. simplify_eq. exists []. rewrite app_nil_r.
      split_and!; [done|intros c rc Hin%elem_of_nil; done|intros c rc; no_such_event]. }
    destruct (start_absent self w Ex R) as [_ Es]. rewrite Es in E. clear Es.
    set (w1 := shell_next in_pull (_pull_line self) w) in *.
    set (w2 := shell_next in_image_exists (_image_exists_line self) w1) in *.
    assert (log w1 = log w ++ [System in_pull (_pull_line self) (shell_rc (_pull_line self) w)])
      as L1 by apply log_shell_next.
    assert (log w2 = log w ++ [System in_pull (_pull_line self) (shell_rc (_pull_line self) w);
                               System in_image_exists (_image_exists_line self)
                                 (shell_rc (_image_exists_line self) w1)])
      as L2.
    { unfold w2. rewrite log_shell_next, L1, <- app_assoc. reflexivity. }
    destruct (shell_rc (_pull_line self) w =? 0);
      [|destruct (shell_rc (_image_exists_line self) w1 =? 0)].
    + apply launch_log in E as (evs & El & Hs). rewrite L1, <- app_assoc in El.
      eexists. split_and!; [exact El| |].
      * intros c rc [Hin|Hin]%elem_of_cons _; [done|]. by apply Hs in Hin.
      * intros c rc [Hin|Hin]%elem_of_cons; [done|]. by apply Hs in Hin.
    + apply launch_log in E as (evs & El & Hs). rewrite L2, <- app_assoc in El.
      eexists. split_and!; [exact El| |].
      * intros c rc [Hin|[Hin|Hin]%elem_of_cons]%elem_of_cons _; [done..|].
        by apply Hs in Hin.
      * intros c rc [Hin|[Hin|Hin]%elem_of_cons]%elem_of_cons; [done..|].
        by apply Hs in Hin.
    + simplify_eq. eexists. split_and!; [exact L2| |].
      * intros c rc Hin. exfalso. revert Hin. no_such_event.
      * intros c rc. no_such_event.
Qed.

End Steps.

(** In every run of [main] in which the build command is run and returns
    a non-zero integer, [main] returns that integer, and neither the
    command that runs the container nor the forwarded command is run. *)
Lemma main_failed_build (H : host) (w w' : world H) (res : outcome Z)
    (cmd : string) (rc : Z) :
  main w = (res, w') →
  System in_build cmd rc ∈ new_events w w' →
  rc ≠ 0 →
  res = Ok rc
  ∧ (∀ c r, System in_start c r ∉ new_events w w')
  ∧ (∀ c r, System in_send_command c r ∉ new_events w w').
Proof.
  unfold main. rewrite bind_eq.
  destruct (from_config w) as [[di|e] w0] eqn:Ec;
    apply from_config_log in Ec as (evs0 & L0 & N0).
  2:{ intros ? Hin; simplify_eq. rewrite (new_events_app _ _ _ L0) in Hin.
      by apply N0 in Hin. }
  rewrite run_eq.
  destruct (after_test_log di w0) as (evs1 & L1 & N1).
  destruct (needs_provisioning di w0).
  - unfold provision_then_forward. rewrite bind_eq.
    destruct (start di (after_test di w0)) as [[rc1|e] w2] eqn:Es;
      apply start_log in Es as (evs2 & L2 & B & S).
    + destruct (Z.eqb_spec rc1 0) as [E0|E0]; cbn [negb].
      * unfold send_command, os_system. intros ? Hin Hrc; simplify_eq.
        rewrite (new_events_app _ _ (evs0 ++ evs1 ++ evs2 ++ [System in_send_command
                   (send_command_line di (tail (argv H)))
                   (shell_rc (send_command_line di (tail (argv H))) w2)])) in Hin.
        2:{ rewrite log_shell_next, L2, L1, L0, <- !app_assoc. reflexivity. }
        rewrite !elem_of_app in Hin. destruct Hin as [Hin|[Hin|[Hin|Hin]]].
        -- by apply N0 in Hin.
        -- by apply N1 in Hin.
        -- destruct (B _ _ Hin Hrc) as [? _]. by simplify_eq.
        -- apply list_elem_of_singleton in Hin. by simplify_eq.
      * rewrite ret_eq. intros ? Hin Hrc; simplify_eq.
        rewrite (new_events_app _ _ (evs0 ++ evs1 ++ evs2)) in Hin |- *
          by (rewrite L2, L1, L0, <- !app_assoc; reflexivity).
        rewrite !elem_of_app in Hin. destruct Hin as [Hin|[Hin|Hin]].
        -- by apply N0 in Hin.
        -- by apply N1 in Hin.
        -- destruct (B _ _ Hin Hrc) as [? ->]. split_and!; [done| |].
           ++ intros c r. rewrite !elem_of_app.
              intros [Hi|[Hi|Hi]]; [by apply N0 in Hi|by apply N1 in Hi|].
              apply list_elem_of_singleton in Hi. by simplify_eq.
           ++ intros c r. rewrite !elem_of_app.
              intros [Hi|[Hi|Hi]]; [by apply N0 in Hi|by apply N1 in Hi|].
              apply list_elem_of_singleton in Hi. by simplify_eq.
    + intros ? Hin Hrc; simplify_eq.
      rewrite (new_events_app _ _ (evs0 ++ evs1 ++ evs2)) in Hin
        by (rewrite L2, L1, L0, <- !app_assoc; reflexivity).
      rewrite !elem_of_app in Hin. destruct Hin as [Hin|[Hin|Hin]].
      * by apply N0 in Hin.
      * by apply N1 in Hin.
      * by destruct (B _ _ Hin Hrc) as [? _].
  - unfold send_command, os_system. intros ? Hin Hrc; simplify_eq.
    rewrite (new_events_app _ _ (evs0 ++ evs1 ++ [System in_send_command
               (send_command_line di (tail (argv H)))
               (shell_rc (send_command_line di (tail (argv H))) (after_test di w0))])) in Hin.
    2:{ rewrite log_shell_next, L1, L0, <- !app_assoc. reflexivity. }
    rewrite !elem_of_app in Hin. destruct Hin as [Hin|[Hin|Hin]].
    + by apply N0 in Hin.
    + by apply N1 in Hin.
    + apply list_elem_of_singleton in Hin. by simplify_eq.
Qed.

(** ** The exit status of the process *)

(** The wait status of a command that ended with an exit code has nothing
    in its low byte, which is all [sys.exit] keeps. *)
Lemma sys_exit_exited (e : Z) : sys_exit (exited e) = 0.
Proof.
  unfold sys_exit, exited. change 255 with (Z.ones 8).
  rewrite Z.land_ones, Z.shiftl_mul_pow2 by lia. apply Z_mod_mult.
Qed.

Lemma exited_nonzero (e : Z) : e ≠ 0 → exited e ≠ 0.
Proof. unfold exited. rewrite Z.shiftl_mul_pow2 by lia. lia. Qed.

Lemma __main___eq (H : host) (w : world H) :
  __main__ w =
  (match (main w).1 with Ok rc => sys_exit rc | Raise _ => 1 end, (main w).2).
Proof. unfold __main__. by destruct (main w) as [[rc|e] w']. Qed.

(** C4 (as the code behaves). In every run of the program in which the
    build command is run and ends with an exit code [e] other than 0,
    [os.system] returns the wait status [e * 256], [main] returns that
    integer, and [sys.exit] on line 201 keeps its low byte: the process
    ends with exit status 0, not with [e].  Neither the command that runs
    the container nor the forwarded command is run. *)
Theorem failed_build_exit_code_lost (H : host) (w w' : world H) (status : Z)
    (cmd : string) (e : Z) :
  __main__ w = (status, w') →
  System in_build cmd (exited e) ∈ new_events w w' →
  0 < e < 256 →
  main w = (Ok (exited e), w')
  ∧ status = 0
  ∧ status ≠ e
  ∧ (∀ c r, System in_start c r ∉ new_events w w')
  ∧ (∀ c r, System in_send_command c r ∉ new_events w w').
Proof.
  rewrite __main___eq. intros E Hin He. injection E as Es Ew.
  assert (exited e ≠ 0) as Hrc by (apply exited_nonzero; lia).
  destruct (main_failed_build H w w' (main w).1 cmd (exited e)) as (Er & Hs & Hf);
    [by rewrite <- Ew, <- surjective_pairing | exact Hin | exact Hrc |].
  rewrite Er in Es. rewrite sys_exit_exited in Es.
  split_and!; [|done|lia|exact Hs|exact Hf].
  by rewrite (surjective_pairing (main w)), Er, Ew.
Qed.

Lemma failed_build_exit_code_lost_witness :
  System in_build "docker build -t dazel/dazel -f Dockerfile.dazel /home/u/proj"
         (exited 1)
    ∈ new_events Demo.broken (__main__ Demo.broken).2
  ∧ 0 < 1 < 256
  ∧ (main Demo.broken).1 = Ok 256
  ∧ (__main__ Demo.broken).1 = 0
  ∧ (∀ c r, System in_start c r ∉ new_events Demo.broken (__main__ Demo.broken).2)
  ∧ (∀ c r, System in_send_command c r
              ∉ new_events Demo.broken (__main__ Demo.broken).2).
Proof.
  assert (System in_build "docker build -t dazel/dazel -f Dockerfile.dazel /home/u/proj"
            (exited 1)
            ∈ new_events Demo.broken (__main__ Demo.broken).2) as Hin.
  { vm_compute. right. left. }
  assert (0 < 1 < 256) as He by lia.
  split; [exact Hin|]. split; [exact He|].
  destruct (failed_build_exit_code_lost Demo.project Demo.broken
              (__main__ Demo.broken).2 (__main__ Demo.broken).1 _ 1
              (surjective_pairing _) Hin He) as (Em & Es & _ & Hs & Hf).
  split_and!; [by rewrite Em|exact Es|exact Hs|exact Hf].
Defined.




(** ** [is_running] *)

Section Running.
Context {H : host}.

Lemma is_running_eq di (w : world H) :
  is_running di w
  = (Ok (reported_running di w), shell_next in_is_running (is_running_line di) w).
Proof. reflexivity. Qed.

End Running.

(** ** Facts about the string operations *)

Section Strings.

Lemma app_cons a (s t : string) : String a s +:+ t = String a (s +:+ t).
Proof. reflexivity. Qed.

Lemma app_nil (t : string) : "" +:+ t = t.
Proof. reflexivity. Qed.

Lemma app_assoc_s (s t u : string) : (s +:+ t) +:+ u = s +:+ (t +:+ u).
Proof. induction s as [|a s IH]; [done|]. by rewrite !app_cons, IH. Qed.

Lemma length_app_s (s t : string) :
  String.length (s +:+ t) = (String.length s + String.length t)%nat.
Proof. induction s as [|a s IH]; [done|]. rewrite app_cons. simpl. by rewrite IH. Qed.

Lemma startswith_app (p x : string) : Py.startswith p (p +:+ x) = true.
Proof.
  induction p as [|a p IH]; [done|]. rewrite app_cons. simpl.
  by rewrite decide_True.
Qed.

Lemma drop_app (p x : string) : Py.drop (String.length p) (p +:+ x) = x.
Proof. induction p as [|a p IH]; [by destruct x|]. by rewrite app_cons. Qed.

Lemma strip_suffix_app (suf p : string) : Demo.strip_suffix suf (p +:+ suf) = p.
Proof.
  induction p as [|a p IH].
  - rewrite app_nil. destruct suf; simpl; repeat case_decide; done.
  - rewrite app_cons. simpl. case_decide as E; [exfalso|by rewrite IH]. apply (f_equal String.length) in E.
    simpl in E. rewrite length_app_s in E. lia.
Qed.

End Strings.

(** ** The shell and [grep] *)

Section Grep.

Lemma startswith_matches pat s :
  Py.startswith pat s = true → Grep.matches_here pat s = true.
Proof.
  revert s. induction pat as [|p pat IH]; intros [|c s]; simpl; try done.
  case_decide as E; [|done]. subst c. intros Hs. rewrite (IH _ Hs), andb_true_r.
  unfold Grep.matches_char. case_decide as Ep; [by subst p|].
  by apply bool_decide_eq_true_2.
Qed.

(** Whatever holds the pattern as it is written has a match for it. *)
Lemma contains_selects pat s :
  Py.contains pat s = true → Grep.selects pat s = true.
Proof.
  induction s as [|c s IH]; cbn [Py.contains Grep.selects].
  - rewrite !orb_false_r. apply startswith_matches.
  - intros [Hs|Hc]%orb_true_iff; apply orb_true_iff;
      [left; by apply startswith_matches | right; by apply IH].
Qed.

Lemma matches_startswith pat s :
  Py.contains "." pat = false →
  Grep.matches_here pat s = Py.startswith pat s.
Proof.
  revert s. induction pat as [|p pat IH]; intros [|c s] Hp; simpl; try done.
  cbn [Py.contains Py.startswith] in Hp.
  apply orb_false_iff in Hp as [Hp Hpat].
  unfold Grep.matches_char. rewrite decide_False.
  2:{ intros ->. by rewrite decide_True in Hp. }
  rewrite IH by done.
  destruct (decide (p = c));
    [by rewrite bool_decide_eq_true_2|by rewrite bool_decide_eq_false_2].
Qed.

(** Without a period in it, the pattern matches only where it is
    written. *)
Lemma selects_contains pat s :
  Py.contains "." pat = false → Grep.selects pat s = Py.contains pat s.
Proof.
  intros Hp. induction s as [|c s IH]; cbn [Py.contains Grep.selects];
    rewrite matches_startswith by done; [done|by rewrite IH].
Qed.

Lemma name_char_not_space a : Posix.name_char a = true → a ≠ " "%char.
Proof. intros Ha ->. vm_compute in Ha. discriminate. Qed.

Lemma alnum_name_char a : Posix.alnum a = true → Posix.name_char a = true.
Proof. unfold Posix.name_char. by intros ->. Qed.

Lemma container_name_chars n :
  Posix.container_name n = true → Posix.all Posix.name_char n = true.
Proof.
  destruct n as [|a n]; [done|]. cbn [Posix.container_name Posix.all].
  intros [Ha Hn]%andb_true_iff. by rewrite (alnum_name_char _ Ha), Hn.
Qed.

(** The shell takes a name for one word. *)
Lemma upto_name n rest :
  Posix.all Posix.name_char n = true → upto " " (n +:+ " " +:+ rest) = n.
Proof.
  induction n as [|a n IH]; [done|]. cbn [Posix.all].
  intros [Ha Hn]%andb_true_iff. rewrite app_cons. cbn [upto Py.startswith].
  rewrite decide_False by (intros E; by apply (name_char_not_space a)).
  by rewrite IH.
Qed.

(** The command line of [is_running] is one the shell and [grep] are
    described for, with the instance name as the pattern. *)
Lemma system_is_running_line which listing di :
  Posix.container_name (instance_name di) = true →
  Posix.system which listing (is_running_line di)
  = Some (match which with
          | Posix.bash =>
              if Grep.selects (instance_name di) listing then exited 0 else exited 1
          | Posix.dash => exited 2
          end).
Proof.
  intros Hn. unfold Posix.system, is_running_line.
  change 17%nat with (String.length "docker ps | grep ").
  rewrite drop_app.
  change (instance_name di +:+ " >& /dev/null")
    with (instance_name di +:+ " " +:+ ">& /dev/null").
  rewrite upto_name by by apply container_name_chars.
  by rewrite bool_decide_eq_true_2, Hn.
Qed.

Lemma is_running_grep (H : host) (ps : ext H → string) di (w : world H) :
  Posix.implements H Posix.bash ps →
  Posix.container_name (instance_name di) = true →
  reported_running di w = Grep.selects (instance_name di) (ps (outside w)).
Proof.
  intros Hsh Hn. unfold reported_running, shell_rc.
  rewrite (Hsh _ (fs w) (outside w) _ (system_is_running_line Posix.bash _ di Hn)).
  by destruct (Grep.selects _ _).
Qed.

Lemma is_running_dash (H : host) (ps : ext H → string) di (w : world H) :
  Posix.implements H Posix.dash ps →
  Posix.container_name (instance_name di) = true →
  reported_running di w = false.
Proof.
  intros Hsh Hn. unfold reported_running, shell_rc.
  by rewrite (Hsh _ (fs w) (outside w) _ (system_is_running_line Posix.dash _ di Hn)).
Qed.

(** The concrete hosts run the shell they are built with. *)
Lemma demo_implements which env rc real :
  Posix.implements (Demo.host_as which env rc real) which Demo.ps_output.
Proof.
  intros cmd fs x st E. cbn [sh Demo.host_as]. unfold Demo.shell_as. by rewrite E.
Qed.

End Grep.

(** Two runs in which [is_running] and the listing disagree.  In the
    first the instance is called [my.app] and the only running container
    is called [my-app]: the name occurs nowhere in the listing, yet [grep]
    finds a match for it, the period standing for the hyphen, and
    [is_running] answers true.  In the second the container [dazel] is up
    and listed, but [/bin/sh] is [dash], which rejects the command line:
    [is_running] answers false. *)
Lemma is_running_not_by_substring :
  (Posix.container_name (instance_name Demo.my_app) = true
   ∧ Py.contains (instance_name Demo.my_app)
       (Demo.ps_output (outside Demo.lookalike)) = false
   ∧ (is_running Demo.my_app Demo.lookalike).1 = Ok true)
  ∧ (Posix.container_name (instance_name Demo.di0) = true
     ∧ Py.contains (instance_name Demo.di0)
         (Demo.ps_output (outside Demo.debian_up)) = true
     ∧ (is_running Demo.di0 Demo.debian_up).1 = Ok false).
Proof. split_and!; vm_compute; reflexivity. Qed.

(** C9 (amended). On a host whose shell is [bash], for an instance name
    that is a word of letters, digits, underscores, periods and hyphens
    starting with a letter or a digit: [is_running] answers true exactly
    when [grep] finds a match for the name in the listing of [docker ps],
    a period in the name standing for any character.  So it answers true
    whenever the name occurs somewhere in the listing, whatever it is part
    of; and for a name without a period it answers true only then.
    Whenever it answers true, a run file is present and the Dockerfile, if
    any, has not changed since, [main] skips provisioning and forwards the
    command at once. *)
Theorem is_running_by_grep (H : host) (ps : ext H → string)
    (di : DockerInstance) (w : world H) :
  Posix.implements H Posix.bash ps →
  Posix.container_name (instance_name di) = true →
  let listing := ps (outside w) in
  (is_running di w).1 = Ok (Grep.selects (instance_name di) listing)
  ∧ (Py.contains (instance_name di) listing = true →
     (is_running di w).1 = Ok true)
  ∧ (Py.contains "." (instance_name di) = false →
     ((is_running di w).1 = Ok true
      ↔ Py.contains (instance_name di) listing = true))
  ∧ ((is_running di w).1 = Ok true →
     ∀ m, fs w !! dazel_run_file di = Some m →
     (∀ d, fs w !! dockerfile di = Some d →
           st_ctime (node_stat d) ≤ st_ctime (node_stat m)) →
     run di w = send_command di (tail (argv H))
                  (shell_next in_is_running (is_running_line di) w)).
Proof.
  intros Hsh Hn listing. rewrite is_running_eq. cbn [fst].
  pose proof (is_running_grep H ps di w Hsh Hn) as Hr. fold listing in Hr.
  split_and!.
  - by rewrite Hr.
  - intros Hc. by rewrite Hr, (contains_selects _ _ Hc).
  - intros Hp. rewrite Hr, (selects_contains _ _ Hp).
    split; [intros E; by simplify_eq | by intros ->].
  - intros Hin m Em Hd. assert (reported_running di w = true) as Ht by by simplify_eq.
    rewrite run_eq. unfold needs_provisioning, after_test. rewrite Em, Ht.
    destruct (fs w !! dockerfile di) as [d|]; [|done].
    specialize (Hd d eq_refl).
    by destruct (Z.ltb_spec (st_ctime (node_stat m)) (st_ctime (node_stat d))); [lia|].
Qed.

Lemma is_running_by_grep_witness :
  Posix.implements Demo.project Posix.bash Demo.ps_output
  ∧ Posix.container_name (instance_name Demo.di0) = true
  ∧ (∀ c, c ∈ Demo.containers (outside Demo.namesake) →
          Demo.cname c ≠ instance_name Demo.di0)
  ∧ Py.contains (instance_name Demo.di0) (Demo.ps_output (outside Demo.namesake)) = true
  ∧ (is_running Demo.di0 Demo.namesake).1 = Ok true
  ∧ run Demo.di0 Demo.namesake
    = send_command Demo.di0 (tail (argv Demo.project))
        (shell_next in_is_running (is_running_line Demo.di0) Demo.namesake).
Proof.
  pose proof (demo_implements Posix.bash [("HOME", "/home/u")] [] Demo.resolve) as Hsh.
  assert (Posix.container_name (instance_name Demo.di0) = true) as Hn by reflexivity.
  pose proof (is_running_by_grep Demo.project Demo.ps_output Demo.di0
                Demo.namesake Hsh Hn) as (_ & Hc & _ & Hs).
  assert (Py.contains (instance_name Demo.di0)
            (Demo.ps_output (outside Demo.namesake)) = true) as Hin by reflexivity.
  split_and!.
  - exact Hsh.
  - exact Hn.
  - intros c Hc'. apply list_elem_of_singleton in Hc'. subst c. discriminate.
  - exact Hin.
  - exact (Hc Hin).
  - refine (Hs (Hc Hin) _ eq_refl _). intros d Hd. vm_compute in Hd.
    injection Hd as <-. simpl. lia.
Defined.

(** ** Splitting a path *)

Section Split.

Lemma rev_app_app (cur t u : string) :
  String.rev_app cur t +:+ u = String.rev_app cur (t +:+ u).
Proof.
  revert t. induction cur as [|a cur IH]; intros t; [done|].
  simpl. by rewrite IH, app_cons.
Qed.

Lemma split_go_skip sep k cur s :
  Py.split_go sep k cur s = Py.split_go sep 0 cur (Py.drop k s).
Proof.
  revert k. induction s as [|a s IH]; intros [|k]; try done.
  simpl. apply IH.
Qed.

Lemma startswith_nil sep : sep ≠ "" → Py.startswith sep "" = false.
Proof. by destruct sep. Qed.

Lemma split_go_spec sep cur s :
  sep ≠ "" →
  Py.split_go sep 0 cur s =
  String.rev_app cur (upto sep s)
  :: match after_first sep s with
     | Some r => Py.split sep r
     | None => []
     end.
Proof.
  intros Hsep. revert cur. induction s as [|a s IH]; intros cur.
  - simpl. by rewrite startswith_nil.
  - cbn [Py.split_go upto after_first].
    destruct (Py.startswith sep (String a s)) eqn:E.
    + rewrite split_go_skip. unfold Py.split, String.rev.
      destruct sep as [|b sep]; [done|].
      cbn [String.length Py.drop]. by rewrite Nat.sub_succ, Nat.sub_0_r.
    + by rewrite IH.
Qed.

Lemma split_spec sep s :
  sep ≠ "" →
  Py.split sep s =
  upto sep s :: match after_first sep s with
                | Some r => Py.split sep r
                | None => []
                end.
Proof. intros Hsep. unfold Py.split at 1. by rewrite split_go_spec. Qed.

Lemma hd_split sep s : sep ≠ "" → hd "" (Py.split sep s) = upto sep s.
Proof. intros Hsep. by rewrite split_spec. Qed.

Lemma find_upto sep s i :
  find sep s = Some i →
  upto sep s = take i s
  ∧ after_first sep s = Some (Py.drop (i + String.length sep) s).
Proof.
  revert i. induction s as [|a s IH]; intros i; cbn [find upto after_first].
  - destruct (Py.startswith sep ""); [|done]. intros ?; by simplify_eq.
  - destruct (Py.startswith sep (String a s)); [intros ?; by simplify_eq|].
    destruct (find sep s) as [j|]; [|done]. simpl. intros ?; simplify_eq.
    destruct (IH j eq_refl) as [E1 E2]. cbn [take Py.drop Nat.add].
    by rewrite E1, E2.
Qed.

Lemma find_contains sep s :
  Py.contains sep s = match find sep s with Some _ => true | None => false end.
Proof.
  induction s as [|a s IH]; cbn [Py.contains find].
  - by destruct (Py.startswith sep "").
  - destruct (Py.startswith sep (String a s)); [done|].
    rewrite IH. by destruct (find sep s).
Qed.

Lemma upto_slash_upto s : upto "/" (upto "/_bazel" s) = upto "/" s.
Proof.
  induction s as [|a s IH]; [done|].
  cbn [upto]. destruct (Py.startswith "/_bazel" (String a s)) eqn:E.
  - simpl in E. simpl. by case_decide.
  - cbn [upto]. simpl. case_decide; [done|]. by rewrite IH.
Qed.

End Split.

(** ** The cache root *)

Section CacheRoot.
Context {H : host}.

Lemma derive_output_root_eq self (w : world H) :
  derive_output_root self w = (Ok (settled_root H self), w).
Proof.
  unfold derive_output_root, settled_root. cbn [truthy].
  destruct (decide (bazel_user_output_root self = "")) as [E|E]; [|done].
  cbn [negb andb]. rewrite find_contains.
  destruct (find "/_bazel" (real_bazelout H self)) as [i|] eqn:Ef;
    [|by rewrite ret_eq, E].
  apply find_upto in Ef as [Eu Ea].
  rewrite (split_spec "/_bazel") by done. rewrite Ea.
  rewrite (split_spec "/_bazel") by done.
  rewrite (split_spec "/") by done.
  rewrite upto_slash_upto, Eu, hd_split by done. reflexivity.
Qed.

Lemma isdir_weaken (fs fs' : gmap string node) p :
  fs ⊆ fs' → FS.isdir fs p = true → FS.isdir fs' p = true.
Proof.
  unfold FS.isdir. intros Hsub.
  destruct (fs !! p) as [[]|] eqn:E; try done.
  by rewrite (lookup_weaken _ _ _ _ E Hsub).
Qed.

Lemma mkdirs_ok t ps (fs : gmap string node) :
  (∀ p, p ∈ ps → FS.isfile fs p = false) →
  ∃ fs', FS.mkdirs t ps fs = Some fs'
         ∧ fs ⊆ fs'
         ∧ ∀ p, p ∈ ps → FS.isdir fs' p = true.
Proof.
  revert fs. induction ps as [|p ps IH]; intros fs Hf.
  - exists fs. split_and!; [done..|]. by intros p Hp%elem_of_nil.
  - cbn [FS.mkdirs]. unfold FS.mkdir_p.
    pose proof (Hf p (list_elem_of_here _ _)) as Hp. unfold FS.isfile in Hp.
    destruct (fs !! p) as [[|st]|] eqn:E; [done| |].
    + destruct (IH fs) as (fs' & -> & Hsub & Hd).
      { intros q Hq. apply Hf. by right. }
      exists fs'. split_and!; [done..|].
      intros q [->|Hq]%elem_of_cons; [|by apply Hd].
      apply (isdir_weaken fs); [done|]. unfold FS.isdir. by rewrite E.
    + set (d := Dir {| st_mtime := t; st_ctime := t |}).
      destruct (IH (<[p := d]> fs)) as (fs' & -> & Hsub & Hd).
      { intros q Hq. unfold FS.isfile.
        destruct (decide (p = q)) as [->|Hne].
        - by rewrite lookup_insert_eq.
        - rewrite lookup_insert_ne by done. apply Hf. by right. }
      exists fs'. split_and!; [done| |].
      * etrans; [|exact Hsub]. by apply insert_subseteq.
      * intros q [->|Hq]%elem_of_cons; [|by apply Hd].
        apply (isdir_weaken (<[p := d]> fs)); [done|].
        unfold FS.isdir. by rewrite lookup_insert_eq.
Qed.

Lemma makedirs_ok t p (fs : gmap string node) :
  p ≠ "" →
  (∀ q, q ∈ FS.ancestors p ++ [p] → FS.isfile fs q = false) →
  ∃ fs', FS.makedirs t p fs = Some fs'
         ∧ fs ⊆ fs'
         ∧ ∀ q, q ∈ FS.ancestors p ++ [p] → FS.isdir fs' q = true.
Proof.
  intros Hp Hf. unfold FS.makedirs. rewrite decide_False by done.
  by apply mkdirs_ok.
Qed.

End CacheRoot.

Lemma default_root_not_empty (H : host) : DEFAULT_BAZEL_USER_OUTPUT_ROOT H ≠ "".
Proof.
  unfold DEFAULT_BAZEL_USER_OUTPUT_ROOT. intros E.
  apply (f_equal String.length) in E. rewrite length_app_s in E.
  simpl in E. lia.
Qed.

Section KeptRoot.
Context {H : host}.

Lemma mkdirs_dirs t ps (fs fs' : gmap string node) :
  FS.mkdirs t ps fs = Some fs' →
  fs ⊆ fs' ∧ ∀ p, p ∈ ps → FS.isdir fs' p = true.
Proof.
  revert fs. induction ps as [|q ps IH]; intros fs; cbn [FS.mkdirs].
  - intros ?; simplify_eq. split; [done|]. by intros p Hp%elem_of_nil.
  - unfold FS.mkdir_p. destruct (fs !! q) as [[|st]|] eqn:Eq; [done| |];
      intros E; destruct (IH _ E) as [Hsub Hd].
    + split; [done|]. intros p [->|Hp]%elem_of_cons; [|by apply Hd].
      apply (isdir_weaken fs); [done|]. unfold FS.isdir. by rewrite Eq.
    + split; [etrans; [|exact Hsub]; by apply insert_subseteq|].
      intros p [->|Hp]%elem_of_cons; [|by apply Hd].
      eapply isdir_weaken; [exact Hsub|]. unfold FS.isdir. by rewrite lookup_insert_eq.
Qed.

(** When the resolver returns, the instance has the root
    [derive_output_root] settled on, and that root is a directory. *)
Lemma _add_volumes_root self vols (w w' : world H) di :
  _add_volumes self vols w = (Ok di, w') →
  bazel_user_output_root di = settled_root H self
  ∧ FS.isdir (fs w') (settled_root H self) = true.
Proof.
  unfold _add_volumes. intros E.
  apply bind_Ok in E as (mounts & w1 & E1 & E). apply mount_list_world in E1 as ->.
  rewrite bind_eq, derive_output_root_eq, bind_eq in E.
  unfold os_path_isdir in E. cbn [bazel_user_output_root] in E.
  destruct (FS.isdir (fs w) (settled_root H self)) eqn:Ed; cbn [negb] in E.
  - rewrite bind_eq, !ret_eq in E. by simplify_eq.
  - rewrite bind_eq in E. unfold os_makedirs in E.
    destruct (FS.makedirs _ _ _) as [fs'|] eqn:Em; [|done].
    rewrite ret_eq in E. simplify_eq. split; [done|]. cbn [fs].
    unfold FS.makedirs in Em. case_decide; [done|].
    apply mkdirs_dirs in Em as [_ Hd]. apply Hd.
    rewrite elem_of_app, list_elem_of_singleton. by right.
Qed.

(** The root the constructor hands to the resolver is the one the
    precedence rule gives. *)
Lemma from_config_root (w w1 w' : world H) (file : gmap string value) di :
  _config_from_file w = (Ok file, w1) →
  from_config w = (Ok di, w') →
  ∃ self vols,
    VStr (bazel_user_output_root self) = precedence H file BazelUserOutputRoot
    ∧ _add_volumes self vols w1 = (Ok di, w').
Proof.
  intros Ef E. unfold from_config in E. rewrite (bind_step _ _ _ _ _ Ef) in E.
  pose proof (constructor_args_get (H:=H)
                (update file (_config_from_environment H)) BazelUserOutputRoot) as Ea.
  rewrite get_update in Ea. unfold __init__ in E.
  repeat (apply bind_Ok in E as (? & ? & [? ->]%str_arg_Ok & E)).
  eexists _, _. split; [|exact E].
  cbn [bazel_user_output_root]. by etrans.
Qed.

End KeptRoot.

(** C8 (as the code behaves). With [DAZEL_BAZEL_USER_OUTPUT_ROOT] set
    neither in the environment nor in the configuration file, [from_config]
    hands the resolver the built-in default [$HOME/.cache/bazel], which is
    never empty, so the test of line 150 fails whatever the resolved
    build-output path is: the instance keeps the default as its cache root
    and no root is derived, also when the build output lies under
    ["/_bazel"].  When the constructor returns, that root is a directory. *)
Theorem unset_root_not_derived (H : host) (w w1 w' : world H)
    (file : gmap string value) (di : DockerInstance) :
  _config_from_file w = (Ok file, w1) →
  file !! "DAZEL_BAZEL_USER_OUTPUT_ROOT" = None →
  environ H !! "DAZEL_BAZEL_USER_OUTPUT_ROOT" = None →
  from_config w = (Ok di, w') →
  bazel_user_output_root di = default "~" (environ H !! "HOME") +:+ "/.cache/bazel"
  ∧ bazel_user_output_root di ≠ ""
  ∧ FS.isdir (fs w') (bazel_user_output_root di) = true.
Proof.
  intros Ef Hfile Henv E.
  destruct (from_config_root _ _ _ _ _ Ef E) as (self & vols & Hp & Ea).
  unfold precedence in Hp. cbn [key] in Hp. rewrite Henv, Hfile in Hp.
  cbn [builtin_default] in Hp. injection Hp as Hp.
  apply _add_volumes_root in Ea as [Er Hd].
  assert (settled_root H self = DEFAULT_BAZEL_USER_OUTPUT_ROOT H) as Hs.
  { unfold settled_root. rewrite Hp.
    by rewrite decide_False by apply default_root_not_empty. }
  rewrite Er, Hs. split_and!; [done|apply default_root_not_empty|by rewrite <- Hs].
Qed.

Lemma unset_root_not_derived_witness :
  _config_from_file Demo.fresh = (Ok ∅, Demo.fresh)
  ∧ environ Demo.project !! "DAZEL_BAZEL_USER_OUTPUT_ROOT" = None
  ∧ from_config Demo.fresh = (Ok Demo.constructed, Demo.ready)
  ∧ real_bazelout Demo.project Demo.constructed
    = "/home/u/.cache/bazel/_bazel_u/8f3c/execroot/proj"
  ∧ bazel_user_output_root Demo.constructed = "/home/u/.cache/bazel"
  ∧ settled_root Demo.project Demo.unrooted = "/home/u/.cache/bazel/_bazel_u"
  ∧ FS.isdir (fs Demo.ready) "/home/u/.cache/bazel" = true
  ∧ FS.isdir (fs Demo.ready) "/home/u/.cache/bazel/_bazel_u" = false.
Proof.
  assert (_config_from_file Demo.fresh = (Ok ∅, Demo.fresh)) as Ef by reflexivity.
  assert (environ Demo.project !! "DAZEL_BAZEL_USER_OUTPUT_ROOT" = None) as He
    by reflexivity.
  assert (from_config Demo.fresh = (Ok Demo.constructed, Demo.ready)) as Ec
    by (vm_compute; reflexivity).
  destruct (unset_root_not_derived Demo.project _ _ _ _ _ Ef (lookup_empty _) He Ec)
    as (Er & _ & Hd).
  split_and!; [exact Ef|exact He|exact Ec|reflexivity|exact Er|reflexivity| |reflexivity].
  rewrite Er in Hd. exact Hd.
Defined.

(** ** What the resolver does with the root it is handed *)

(** A project that was never built, with the setting bound to the empty
    string: the resolved build-output path has no ["/_bazel"], the guard of
    line 150 fails, the root stays empty and [os.makedirs] refuses it. *)
Example empty_root_of_unbuilt_project :
  arg BazelUserOutputRoot
      (constructor_args Demo.rootless (update ∅ (_config_from_environment Demo.rootless)))
    = VStr ""
  ∧ Py.contains "/_bazel" (real_bazelout Demo.rootless Demo.unrooted) = false
  ∧ _add_volumes Demo.unrooted (VList []) Demo.rootless_world
    = (Raise (OSError ""), Demo.rootless_world)
  ∧ from_config Demo.rootless_world = (Raise (OSError ""), Demo.rootless_world).
Proof. split_and!; vm_compute; reflexivity. Qed.

(** Provided the mount list could be built: the resolver keeps a non-empty
    cache root as it was handed over; for an empty one whose resolved
    build-output path contains ["/_bazel"] it settles on the text before the
    first ["/_bazel"], then ["/_bazel"], then what follows up to the next
    ["/"].  Whenever the root it settles on is not empty and is a directory
    already, or neither it nor one of its ancestors is a file, the resolver
    succeeds, stores that root, and the root is a directory afterwards:
    untouched if it was one, otherwise created together with its missing
    ancestors. *)
Lemma cache_root_settled_and_ensured (H : host) (self : DockerInstance)
    (vols : value) (w : world H) (mounts : list string) :
  (mount_list self vols w).1 = Ok mounts →
  let out := real_bazelout H self in
  let root := settled_root H self in
  root ≠ "" →
  (FS.isdir (fs w) root = true
   ∨ ∀ p, p ∈ FS.ancestors root ++ [root] → FS.isfile (fs w) p = false) →
  DEFAULT_BAZEL_USER_OUTPUT_ROOT H ≠ ""
  ∧ (bazel_user_output_root self ≠ "" → root = bazel_user_output_root self)
  ∧ (bazel_user_output_root self = "" → ∃ i,
       find "/_bazel" out = Some i
       ∧ root = take i out +:+ "/_bazel" +:+ hd "" (Py.split "/" (Py.drop (i + 7) out)))
  ∧ ∃ di w',
      _add_volumes self vols w = (Ok di, w')
      ∧ bazel_user_output_root di = root
      ∧ FS.isdir (fs w') root = true
      ∧ (FS.isdir (fs w) root = true → fs w' = fs w)
      ∧ (FS.isdir (fs w) root = false →
           ∀ p, p ∈ FS.ancestors root → FS.isdir (fs w') p = true)
      ∧ fs w ⊆ fs w'.
Proof.
  intros Em out root Hroot Hfs. split_and!.
  - apply default_root_not_empty.
  - intros E. unfold root, settled_root. by rewrite decide_False.
  - intros E. unfold root, settled_root in *. rewrite decide_True in * by done.
    fold out in Hroot |- *. destruct (find "/_bazel" out) as [i|]; [eauto|done].
  - destruct (mount_list self vols w) as [r w1] eqn:Em'.
    pose proof (mount_list_world _ _ _ _ _ Em') as ->. simpl in Em. subst r.
    unfold _add_volumes.
    rewrite (bind_step _ _ _ _ _ Em'), bind_eq, derive_output_root_eq.
    fold root. rewrite bind_eq. unfold os_path_isdir. cbn [bazel_user_output_root].
    destruct (FS.isdir (fs w) root) eqn:Ed; cbn [negb].
    + rewrite bind_eq, !ret_eq. eexists _, w. split_and!; try done.
    + destruct Hfs as [?|Hfs]; [done|].
      destruct (makedirs_ok (now H (outside w)) root (fs w) Hroot Hfs)
        as (fs' & Emk & Hsub & Hd).
      rewrite bind_eq. unfold os_makedirs. rewrite Emk, ret_eq.
      eexists _, _. split_and!; [reflexivity|done| |done| |done].
      * cbn [fs]. apply Hd. rewrite elem_of_app, list_elem_of_singleton. by right.
      * intros _ p Hp. cbn [fs]. apply Hd. rewrite elem_of_app. by left.
Qed.

(** The empty root in a project that was built: the root of user [u]'s
    build cache is derived and created. *)
Example cache_root_derived_and_created :
  (mount_list Demo.unrooted (VList []) Demo.fresh).1
    = Ok [ "/home/u/proj:/home/u/proj";
           "/home/u/.cache/bazel/_bazel_u/8f3c/execroot/proj"
             +:+ ":" +:+ "/home/u/.cache/bazel/_bazel_u/8f3c/execroot/proj" ]
  ∧ settled_root Demo.project Demo.unrooted = "/home/u/.cache/bazel/_bazel_u"
  ∧ FS.isdir (fs Demo.fresh) "/home/u/.cache/bazel/_bazel_u" = false
  ∧ ∃ di w',
      _add_volumes Demo.unrooted (VList []) Demo.fresh = (Ok di, w')
      ∧ bazel_user_output_root di = "/home/u/.cache/bazel/_bazel_u"
      ∧ FS.isdir (fs w') "/home/u/.cache/bazel/_bazel_u" = true
      ∧ FS.isdir (fs w') "/home/u/.cache/bazel" = true
      ∧ FS.isdir (fs w') "/home/u" = true.
Proof.
  assert (settled_root Demo.project Demo.unrooted = "/home/u/.cache/bazel/_bazel_u")
    as Er by reflexivity.
  split_and!; [reflexivity | exact Er | reflexivity |].
  destruct (cache_root_settled_and_ensured Demo.project Demo.unrooted (VList [])
              Demo.fresh _ eq_refl) as (_ & _ & _ & di & w' & E & Eroot & Hd & _ & Ha & _).
  - rewrite Er. discriminate.
  - right. rewrite Er. intros p Hp. vm_compute in Hp.
    repeat (apply elem_of_cons in Hp as [->|Hp]; [reflexivity|]).
    by apply elem_of_nil in Hp.
  - rewrite Er in *. exists di, w'. split_and!; [exact E|exact Eroot|exact Hd| |].
    + apply Ha; [reflexivity|]. vm_compute. do 3 right. left.
    + apply Ha; [reflexivity|]. vm_compute. right. left.
Qed.


(** * Further properties *)

(** ** Where the settings come from *)

(** X1. Only the nine settings are read from the merged configuration, and only
    [DAZEL_]-prefixed variables of the environment enter it: a variable
    without the prefix neither adds nor overrides a binding, and two
    configurations that agree on the nine keys give the same constructor
    arguments, whatever else they bind. *)
Theorem other_names_ignored (H : host) (file : gmap string value) :
  (∀ k, Py.startswith "DAZEL_" k = false →
        update file (_config_from_environment H) !! k = file !! k)
  ∧ (∀ c1 c2 : gmap string value,
       (∀ s, c1 !! key s = c2 !! key s) →
       constructor_args H c1 = constructor_args H c2).
Proof.
  split.
  - intros k Hk. unfold update, _config_from_environment.
    rewrite lookup_union, lookup_fmap, map_lookup_filter.
    destruct (environ H !! k) as [x|]; simpl.
    + case_guard as Hg; simpl in *; [by rewrite Hk in Hg|].
      by destruct (file !! k).
    + by destruct (file !! k).
  - intros c1 c2 E.
    assert (∀ s d, get c1 (key s) d = get c2 (key s) d) as X
      by (intros; unfold get; by rewrite E).
    unfold constructor_args.
    f_equal; [ exact (X InstanceName _) | exact (X ImageName _)
             | exact (X Dockerfile _) | exact (X Repository _)
             | exact (X Directory _) | exact (X Command _)
             | exact (X Volumes _) | exact (X BazelUserOutputRoot _)
             | exact (X RunFile _) ].
Qed.

Section ConfigFile.
Context {H : host}.

Lemma _config_from_file_eq (w : world H) :
  _config_from_file w =
  match fs w !! dazelrc_path H with
  | None => (Ok ∅, w)
  | Some (File text _) => (exec_py H text, w)
  | Some (Dir _) => (Raise (IOError (dazelrc_path H)), w)
  end.
Proof.
  unfold _config_from_file. fold (dazelrc_path H).
  rewrite bind_eq. unfold os_path_exists, FS.exists_.
  destruct (fs w !! dazelrc_path H) as [[text st|st]|] eqn:E; cbn [negb]; [| |done].
  - rewrite bind_eq. unfold read_file. rewrite E. unfold lift.
    by destruct (exec_py H text).
  - rewrite bind_eq. unfold read_file. by rewrite E.
Qed.

End ConfigFile.

(** X2. A missing configuration file is not an error: the settings then come
    from the environment and the defaults alone.  A file that is there is
    executed, and whatever exception that raises ends [main] before any
    command is run or any file touched; so does a directory in its place. *)
Theorem config_file_optional_and_fatal (H : host) (w : world H) :
  (fs w !! dazelrc_path H = None →
     _config_from_file w = (Ok ∅, w)
     ∧ from_config w = __init__ (constructor_args H (_config_from_environment H)) w)
  ∧ (∀ text st e, fs w !! dazelrc_path H = Some (File text st) →
       exec_py H text = Raise e → main w = (Raise e, w))
  ∧ (∀ st, fs w !! dazelrc_path H = Some (Dir st) →
       main w = (Raise (IOError (dazelrc_path H)), w)).
Proof.
  split_and!.
  - intros E.
    assert (_config_from_file w = (Ok ∅, w)) as Ef by by rewrite _config_from_file_eq, E.
    split; [done|]. unfold from_config. rewrite (bind_step _ _ _ _ _ Ef).
    unfold update. by rewrite (right_id ∅ (∪)).
  - intros text st e E Ee. unfold main, from_config.
    rewrite !bind_eq, _config_from_file_eq, E, Ee. done.
  - intros st E. unfold main, from_config.
    rewrite !bind_eq, _config_from_file_eq, E. done.
Qed.

Lemma config_file_optional_and_fatal_witness :
  (fs Demo.fresh !! dazelrc_path Demo.project = None
   ∧ _config_from_file Demo.fresh = (Ok ∅, Demo.fresh))
  ∧ (fs DemoRc.garbled_world !! dazelrc_path DemoRc.garbled
       = Some (File "DAZEL_IMAGE_NAME = " (Demo.at_ 1))
     ∧ exec_py DemoRc.garbled "DAZEL_IMAGE_NAME = " = Raise (ExecError "invalid syntax")
     ∧ main DemoRc.garbled_world
       = (Raise (ExecError "invalid syntax"), DemoRc.garbled_world))
  ∧ (fs DemoRc.rc_is_directory !! dazelrc_path Demo.project = Some (Dir (Demo.at_ 1))
     ∧ main DemoRc.rc_is_directory
       = (Raise (IOError "/home/u/proj/.dazelrc"), DemoRc.rc_is_directory)).
Proof.
  split_and!.
  - reflexivity.
  - exact (proj1 (proj1 (config_file_optional_and_fatal Demo.project Demo.fresh) eq_refl)).
  - reflexivity.
  - reflexivity.
  - exact (proj1 (proj2 (config_file_optional_and_fatal DemoRc.garbled
             DemoRc.garbled_world)) _ _ _ eq_refl eq_refl).
  - reflexivity.
  - exact (proj2 (proj2 (config_file_optional_and_fatal Demo.project
             DemoRc.rc_is_directory)) _ eq_refl).
Defined.

(** ** The volumes setting, kind by kind *)

(** X3. The mount list for every kind of volumes setting.  A string is split
    at commas and trimmed; the empty list gives the two implicit mounts
    alone; a non-empty list, the other documented form, dies in the
    look-up of [types.Iterable]; [None] dies in [+=].  Nothing is changed
    in the world. *)
Theorem volumes_by_kind (H : host) (self : DockerInstance) (w : world H) :
  (∀ s, mount_list self (VStr s) w
        = (Ok (map Py.strip (Py.split "," s) ++ implicit_mounts H self), w))
  ∧ mount_list self (VList []) w = (Ok (implicit_mounts H self), w)
  ∧ (∀ x l, mount_list self (VList (x :: l)) w
            = (Raise (AttributeError "'module' object has no attribute 'Iterable'"), w))
  ∧ mount_list self VNone w
    = (Raise (TypeError "unsupported operand type(s) for +="), w).
Proof.
  unfold mount_list. split_and!; intros; by rewrite bind_eq, check_volumes_total.
Qed.

Lemma mount_list_ends_implicit {H : host} (self : DockerInstance) (vols : value)
    (w w' : world H) (mounts : list string) :
  mount_list self vols w = (Ok mounts, w') →
  ∃ given, mounts = given ++ implicit_mounts H self.
Proof.
  unfold mount_list. rewrite bind_eq, check_volumes_total.
  destruct vols as [s|[|x l]|n|]; simpl; rewrite ?ret_eq; intros E; try done.
  - simplify_eq. eexists. reflexivity.
  - simplify_eq. exists []. reflexivity.
  - by destruct (n =? 0).
Qed.

(** ** Quoting *)

Section Quoting.

Lemma join_quoted (sep : string) (l : list string) :
  l ≠ [] →
  dq +:+ Py.join (dq +:+ sep +:+ dq) l +:+ dq = Py.join sep (map quoted l).
Proof.
  induction l as [|x [|y l] IH]; [done|by intros _|]. intros _.
  change (Py.join (dq +:+ sep +:+ dq) (x :: y :: l))
    with (x +:+ (dq +:+ sep +:+ dq) +:+ Py.join (dq +:+ sep +:+ dq) (y :: l)).
  change (Py.join sep (map quoted (x :: y :: l)))
    with (quoted x +:+ sep +:+ Py.join sep (map quoted (y :: l))).
  rewrite <- IH by done. unfold quoted. by rewrite !app_assoc_s.
Qed.

Lemma serialise_flags (l : list string) :
  l ≠ [] → serialise l = Py.join " " (map mount_flag l).
Proof.
  intros Hl. unfold serialise.
  rewrite (join_quoted " -v " l Hl).
  induction l as [|x [|y l] IH]; [done|reflexivity|].
  specialize (IH ltac:(done)).
  change (Py.join " -v " (map quoted (x :: y :: l)))
    with (quoted x +:+ " -v " +:+ Py.join " -v " (map quoted (y :: l))).
  change (Py.join " " (map mount_flag (x :: y :: l)))
    with (mount_flag x +:+ " " +:+ Py.join " " (map mount_flag (y :: l))).
  rewrite <- IH. unfold mount_flag. by rewrite !app_assoc_s.
Qed.

End Quoting.

(** X5. The volumes attribute of every instance that gets constructed is one
    [-v "mount"] option per mount, separated by single spaces: the given
    mounts first, then the working directory and the build-output parent,
    each mapped to itself. *)
Theorem volumes_one_flag_per_mount (H : host) (self : DockerInstance)
    (vols : value) (w w' : world H) (di : DockerInstance) :
  _add_volumes self vols w = (Ok di, w') →
  ∃ given,
    mount_list self vols w = (Ok (given ++ implicit_mounts H self), w)
    ∧ volumes di = Py.join " " (map mount_flag (given ++ implicit_mounts H self)).
Proof.
  unfold _add_volumes. intros E.
  apply bind_Ok in E as (mounts & w1 & Em & E).
  pose proof (mount_list_world _ _ _ _ _ Em) as ->.
  apply bind_Ok in E as (root & w2 & _ & E).
  apply bind_Ok in E as (d & w3 & _ & E).
  apply bind_Ok in E as (u & w4 & _ & E).
  rewrite ret_eq in E. simplify_eq. cbn [volumes].
  destruct (mount_list_ends_implicit _ _ _ _ _ Em) as [given ->].
  exists given. split; [done|]. apply serialise_flags. by destruct given.
Qed.

Lemma volumes_one_flag_per_mount_witness :
  ∃ di w',
    _add_volumes Demo.di0 (VStr "a:b, c:d") Demo.fresh = (Ok di, w')
    ∧ volumes di
      = Py.join " " (map mount_flag (["a:b"; "c:d"] ++ implicit_mounts Demo.project Demo.di0)).
Proof.
  assert (∃ di w', _add_volumes Demo.di0 (VStr "a:b, c:d") Demo.fresh = (Ok di, w'))
    as (di & w' & E) by (eexists _, _; vm_compute; reflexivity).
  exists di, w'. split; [exact E|].
  destruct (volumes_one_flag_per_mount Demo.project _ _ _ _ _ E) as (given & Em & Ev).
  assert (given = ["a:b"; "c:d"]) as ->.
  { assert (mount_list Demo.di0 (VStr "a:b, c:d") Demo.fresh
            = (Ok (["a:b"; "c:d"] ++ implicit_mounts Demo.project Demo.di0), Demo.fresh))
      as Em' by reflexivity.
    rewrite Em' in Em. injection Em as Em.
    exact (app_inv_tail _ given ["a:b"; "c:d"] (eq_sym Em)). }
  exact Ev.
Defined.

(** X6. The forwarded command line ends with the arguments, each in double
    quotes of its own, separated by single spaces; with no argument at all
    it ends with one empty quoted argument.  [send_command] runs exactly
    this line and returns what it returned. *)
Theorem forwarded_arguments (H : host) (self : DockerInstance)
    (args : list string) (w : world H) :
  send_command_line self args
  = "docker exec -it " +:+ instance_name self +:+ " " +:+ command self
      +:+ " --output_user_root=" +:+ bazel_user_output_root self +:+ " "
      +:+ match args with
          | [] => quoted ""
          | _ => Py.join " " (map quoted args)
          end
  ∧ send_command self args w
    = (Ok (shell_rc (send_command_line self args) w),
       shell_next in_send_command (send_command_line self args) w).
Proof.
  split; [|reflexivity]. unfold send_command_line.
  destruct args as [|a args]; [reflexivity|].
  by rewrite (join_quoted " " (a :: args)).
Qed.

(** ** What construction does to the files *)

Section Construction.
Context {H : host}.

Lemma mkdirs_only t ps (fs fs' : gmap string node) :
  FS.mkdirs t ps fs = Some fs' →
  fs ⊆ fs'
  ∧ ∀ p n, fs' !! p = Some n →
           fs !! p = Some n ∨ (fs !! p = None ∧ p ∈ ps ∧ ∃ st, n = Dir st).
Proof.
  revert fs. induction ps as [|q ps IH]; intros fs; cbn [FS.mkdirs].
  - intros ?; simplify_eq. split; [done|]. auto.
  - unfold FS.mkdir_p. destruct (fs !! q) as [[|st]|] eqn:Eq; [done| |].
    + intros E. destruct (IH _ E) as [Hsub Hn]. split; [done|].
      intros p n Hp. destruct (Hn p n Hp) as [?|(?&?&?)]; [by left|right].
      split_and!; [done|by right|done].
    + intros E. destruct (IH _ E) as [Hsub Hn]. split.
      * etrans; [|exact Hsub]. by apply insert_subseteq.
      * intros p n Hp. destruct (Hn p n Hp) as [Hl|(Hl&?&?)].
        -- destruct (decide (q = p)) as [->|Hne].
           ++ rewrite lookup_insert_eq in Hl. simplify_eq. right.
              split_and!; [done|by left|by eexists].
           ++ rewrite lookup_insert_ne in Hl by done. by left.
        -- right. destruct (decide (q = p)) as [->|Hne].
           ++ by rewrite lookup_insert_eq in Hl.
           ++ rewrite lookup_insert_ne in Hl by done.
              split_and!; [done|by right|done].
Qed.

Lemma _add_volumes_files self vols (w w' : world H) r :
  _add_volumes self vols w = (r, w') →
  outside w' = outside w
  ∧ fs w ⊆ fs w'
  ∧ (∀ p n, fs w' !! p = Some n →
       fs w !! p = Some n
       ∨ (fs w !! p = None
          ∧ p ∈ FS.ancestors (settled_root H self) ++ [settled_root H self]
          ∧ ∃ st, n = Dir st))
  ∧ (∀ e, r = Raise e → w' = w).
Proof.
  unfold _add_volumes. rewrite bind_eq.
  destruct (mount_list self vols w) as [[mounts|e] w1] eqn:E1;
    apply mount_list_world in E1 as ->;
    [|intros ?; simplify_eq; split_and!; [done|done|by left|done]].
  rewrite bind_eq, derive_output_root_eq, bind_eq.
  unfold os_path_isdir. cbn [bazel_user_output_root].
  destruct (FS.isdir (fs w) (settled_root H self)); cbn [negb];
    rewrite bind_eq, ?ret_eq.
  - intros ?; simplify_eq. split_and!; [done|done|by left|done].
  - unfold os_makedirs. destruct (FS.makedirs _ _ _) as [fs'|] eqn:Em;
      rewrite ?ret_eq; intros ?; simplify_eq.
    + unfold FS.makedirs in Em. case_decide; [done|].
      apply mkdirs_only in Em as [Hsub Hn]. split_and!; [done|done| |done].
      intros p n Hp. cbn [fs] in Hp. by apply Hn.
    + split_and!; [done|done|by left|done].
Qed.

End Construction.

(** X7. Constructing the instance never changes or removes a file-system
    entry and runs no command: whatever [from_config] adds is a directory,
    namely the cache root of the instance or one of its ancestors; and
    when it raises, nothing was added at all. *)
Theorem construction_only_adds_directories (H : host) (w w' : world H)
    (r : outcome DockerInstance) :
  from_config w = (r, w') →
  outside w' = outside w
  ∧ fs w ⊆ fs w'
  ∧ (∀ p n, fs w' !! p = Some n → fs w !! p = None →
       (∃ st, n = Dir st)
       ∧ ∀ di, r = Ok di →
           p ∈ FS.ancestors (bazel_user_output_root di) ++ [bazel_user_output_root di])
  ∧ (∀ e, r = Raise e → w' = w).
Proof.
  unfold from_config. rewrite bind_eq.
  destruct (_config_from_file w) as [[file|e] w1] eqn:E;
    apply _config_from_file_world in E as ->.
  2:{ intros ?; simplify_eq. split_and!; [done..| |done].
      intros p n Hp Hn. by rewrite Hp in Hn. }
  unfold __init__.
  repeat (rewrite bind_eq;
    lazymatch goal with
    | |- context [str_arg ?s ?a w] =>
        let E := fresh in
        destruct (str_arg s a w) as [[?|?] ?] eqn:E;
        apply str_arg_world in E as ->;
        [|intros ?; simplify_eq; split_and!; [done..| |done];
          intros p n Hp Hn; by rewrite Hp in Hn]
    end).
  intros E. pose proof E as E'.
  apply _add_volumes_files in E as (Ho & Hsub & Hn & Hr).
  split_and!; [done|done| |done].
  intros p n Hp Hnone. destruct (Hn p n Hp) as [Hs|(_ & Hin & Hd)].
  { by rewrite Hs in Hnone. }
  split; [done|]. intros di ->.
  unfold _add_volumes in E'.
  apply bind_Ok in E' as (mounts & w1 & _ & E').
  rewrite bind_eq, derive_output_root_eq in E'.
  apply bind_Ok in E' as (d & w3 & _ & E').
  apply bind_Ok in E' as (u & w4 & _ & E').
  rewrite ret_eq in E'. simplify_eq. exact Hin.
Qed.

Lemma construction_only_adds_directories_witness :
  from_config Demo.fresh = (Ok Demo.constructed, Demo.ready)
  ∧ outside Demo.ready = outside Demo.fresh
  ∧ fs Demo.fresh ⊆ fs Demo.ready
  ∧ fs Demo.ready !! "/home/u/.cache" = Some (Dir (Demo.at_ 100)).
Proof.
  assert (from_config Demo.fresh = (Ok Demo.constructed, Demo.ready)) as E
    by (vm_compute; reflexivity).
  destruct (construction_only_adds_directories Demo.project _ _ _ E)
    as (Ho & Hsub & _ & _).
  split_and!; [exact E|exact Ho|exact Hsub|reflexivity].
Defined.

(** ** What provisioning does to the files *)

Section RunFile.
Context {H : host}.

Lemma launch_files self (w w' : world H) r :
  launch self w = (r, w') →
  (r = Ok 0
   ∧ fs w' = <[dazel_run_file self :=
                 File (instance_name self +:+ String "010"%char "")
                      {| st_mtime := now H (outside w');
                         st_ctime := now H (outside w') |}]> (fs w))
  ∨ (r ≠ Ok 0 ∧ fs w' = fs w).
Proof.
  rewrite launch_eq. cbn zeta.
  destruct (Z.eqb_spec (shell_rc (run_line H self) (announced self w)) 0) as [E0|E0].
  - destruct (FS.writable (fs w) (dazel_run_file self)); intros ?; simplify_eq;
      rewrite ?E0; first [by left | by right].
  - intros ?; simplify_eq. right. split; [congruence|done].
Qed.

Lemma start_files self (w w' : world H) r :
  start self w = (r, w') →
  (r = Ok 0
   ∧ fs w' = <[dazel_run_file self :=
                 File (instance_name self +:+ String "010"%char "")
                      {| st_mtime := now H (outside w');
                         st_ctime := now H (outside w') |}]> (fs w))
  ∨ (r ≠ Ok 0 ∧ fs w' = fs w).
Proof.
  intros E. destruct (FS.exists_ (fs w) (dockerfile self)) eqn:Ex.
  - destruct (start_present self w Ex) as [_ Es]. rewrite Es in E. clear Es.
    destruct (Z.eqb_spec (shell_rc (_build_line self) w) 0).
    + by apply launch_files in E.
    + simplify_eq. right. split; [congruence|done].
  - destruct (decide (repository self = "")) as [R|R].
    { rewrite (start_unnamed self w Ex R) in E. simplify_eq. by right. }
    destruct (start_absent self w Ex R) as [_ Es]. rewrite Es in E. clear Es.
    destruct (Z.eqb_spec (shell_rc (_pull_line self) w) 0);
      [|destruct (shell_rc (_image_exists_line self) _ =? 0)].
    + by apply launch_files in E.
    + by apply launch_files in E.
    + simplify_eq. right. split; [congruence|done].
Qed.

End RunFile.

(** X8. [start] touches the run file only when it succeeds: if it returns 0,
    the only change to the files is the run file, now holding the instance
    name and a newline, stamped with the current time; if it returns
    anything else or raises, the files are exactly as before. *)
Theorem run_file_written_only_on_success (H : host) (self : DockerInstance)
    (w w' : world H) (r : outcome Z) :
  start self w = (r, w') →
  (r = Ok 0 →
     fs w' = <[dazel_run_file self :=
                 File (instance_name self +:+ String "010"%char "")
                      {| st_mtime := now H (outside w');
                         st_ctime := now H (outside w') |}]> (fs w))
  ∧ (r ≠ Ok 0 → fs w' = fs w).
Proof.
  intros E. apply start_files in E as [[-> E]|[Hr E]]; split; done.
Qed.

Lemma run_file_written_only_on_success_witness :
  (start Demo.di0 Demo.broken).1 ≠ Ok 0
  ∧ fs (start Demo.di0 Demo.broken).2 = fs Demo.broken
  ∧ (start Demo.di0 Demo.fresh).1 = Ok 0
  ∧ fs (start Demo.di0 Demo.fresh).2 !! ".dazel_run"
    = Some (File ("dazel" +:+ String "010"%char "") (Demo.at_ 102)).
Proof.
  assert ((start Demo.di0 Demo.broken).1 ≠ Ok 0) as Hb by (vm_compute; discriminate).
  assert ((start Demo.di0 Demo.fresh).1 = Ok 0) as Hf by reflexivity.
  split_and!; [exact Hb| |exact Hf|].
  - exact (proj2 (run_file_written_only_on_success Demo.project Demo.di0 Demo.broken
                    _ _ (surjective_pairing _)) Hb).
  - rewrite (proj1 (run_file_written_only_on_success Demo.project Demo.di0 Demo.fresh
                      _ _ (surjective_pairing _)) Hf).
    reflexivity.
Defined.

(** X9. Provisioning makes the instance fresh: after a [start] that returned 0,
    as long as the container is reported running and the Dockerfile did not
    change after the run file was stamped, the next staleness test is
    negative and the command is forwarded at once. *)
Theorem fresh_after_provisioning (H : host) (di : DockerInstance)
    (w w' : world H) :
  start di w = (Ok 0, w') →
  reported_running di w' = true →
  (∀ d, fs w !! dockerfile di = Some d →
        st_ctime (node_stat d) ≤ now H (outside w')) →
  needs_provisioning di w' = false
  ∧ run di w' = send_command di (tail (argv H))
                  (shell_next in_is_running (is_running_line di) w').
Proof.
  intros E Hr Hd. apply start_files in E as [[_ E]|[? _]]; [|done].
  assert (needs_provisioning di w' = false) as Hn.
  { unfold needs_provisioning. rewrite E, lookup_insert_eq, Hr.
    destruct (decide (dazel_run_file di = dockerfile di)) as [Ep|Ep].
    - rewrite <- Ep, lookup_insert_eq. cbn. apply Z.ltb_irrefl.
    - rewrite lookup_insert_ne by done.
      destruct (fs w !! dockerfile di) as [d|] eqn:Ed; [|done].
      cbn [node_stat st_ctime]. apply Z.ltb_ge. by apply Hd. }
  split; [exact Hn|]. rewrite run_eq, Hn. unfold after_test.
  by rewrite E, lookup_insert_eq.
Qed.

Lemma fresh_after_provisioning_witness :
  start Demo.di0 Demo.provisioned
    = (Ok 0, (start Demo.di0 Demo.provisioned).2)
  ∧ reported_running Demo.di0 (start Demo.di0 Demo.provisioned).2 = true
  ∧ needs_provisioning Demo.di0 (start Demo.di0 Demo.provisioned).2 = false.
Proof.
  assert (start Demo.di0 Demo.provisioned
          = (Ok 0, (start Demo.di0 Demo.provisioned).2)) as E by reflexivity.
  assert (reported_running Demo.di0 (start Demo.di0 Demo.provisioned).2 = true)
    as Hr by reflexivity.
  split_and!; [exact E|exact Hr|].
  refine (proj1 (fresh_after_provisioning Demo.project Demo.di0 _ _ E Hr _)).
  intros d Hd. vm_compute in Hd. injection Hd as <-. vm_compute. discriminate.
Defined.

(** ** The order of the commands *)

(** Inverts membership in a list that is written out. *)
Ltac inv_mem Hin :=
  repeat (apply elem_of_cons in Hin as [Hin|Hin]; [try discriminate Hin|]);
  [try simplify_eq.. | by apply elem_of_nil in Hin].

Ltac in_list :=
  solve [repeat first [apply list_elem_of_here | apply list_elem_of_further]].

Section Order.
Context {H : host}.

Lemma sites_of_app (a b : list event) : sites_of (a ++ b) = sites_of a ++ sites_of b.
Proof. apply omap_app. Qed.

Lemma launch_trace self (w w' : world H) r :
  launch self w = (r, w') →
  ∃ evs, log w' = log w ++ evs
    ∧ sites_of evs = [in_start]
    ∧ (∀ p s, Wrote p s ∈ evs → r = Ok 0)
    ∧ (∀ c rc, System in_start c rc ∈ evs →
         (rc ≠ 0 → r = Ok rc ∧ ∀ p s, Wrote p s ∉ evs) ∧ (r = Ok 0 → rc = 0))
    ∧ (∀ s c rc, System s c rc ∈ evs → s = in_start).
Proof.
  rewrite launch_eq. cbn zeta.
  assert (log (container_run self w)
          = log w ++ [ Print ("Starting docker container '" +:+ instance_name self +:+ "'...");
                       System in_start (run_line H self)
                         (shell_rc (run_line H self) (announced self w)) ]) as Lc.
  { unfold container_run. rewrite log_shell_next. cbn [log announced].
    by rewrite <- app_assoc. }
  remember (shell_rc (run_line H self) (announced self w)) as rc eqn:Hrc.
  destruct (Z.eqb_spec rc 0) as [E0|E0].
  - destruct (FS.writable (fs w) (dazel_run_file self)) eqn:Ef; intros ?; simplify_eq.
    + eexists. split; [reflexivity|]. split; [reflexivity|]. split_and!.
      * intros p s _. by rewrite E0.
      * intros c rc' Hin. inv_mem Hin. split; [by rewrite E0|done].
      * intros s c rc' Hin. by inv_mem Hin.
    + eexists. split; [exact Lc|]. split; [reflexivity|]. split_and!.
      * intros p s Hin. by inv_mem Hin.
      * intros c rc' Hin. inv_mem Hin. split; [by rewrite E0|done].
      * intros s c rc' Hin. by inv_mem Hin.
  - intros ?; simplify_eq.
    eexists. split; [exact Lc|]. split; [reflexivity|]. split_and!.
    + intros p s Hin. by inv_mem Hin.
    + intros c rc' Hin. inv_mem Hin. split.
      * intros _. split; [done|]. intros p s Hin'. by inv_mem Hin'.
      * intros ?; by simplify_eq.
    + intros s c rc' Hin. by inv_mem Hin.
Qed.

Lemma outcome_is_zero_nonzero rc : rc ≠ 0 → outcome_is_zero (Ok rc) = false.
Proof. by destruct rc. Qed.

Lemma outcome_is_zero_true r : outcome_is_zero r = true → r = Ok 0.
Proof. destruct r as [[]|]; by simpl. Qed.

(** The events of [start], once the image step has logged [pre] and
    [launch] follows. *)
Lemma start_trace_launch self (w1 w' : world H) r (pre : list event) :
  launch self w1 = (r, w') →
  (∀ p s, Wrote p s ∉ pre) →
  (∀ c rc, System in_start c rc ∉ pre) →
  (∀ c rc, System in_send_command c rc ∉ pre) →
  (∀ c rc, System in_is_running c rc ∉ pre) →
  ∃ evs, log w' = log w1 ++ evs
    ∧ sites_of (pre ++ evs) = sites_of pre ++ [in_start]
    ∧ (∀ p s, Wrote p s ∈ pre ++ evs → r = Ok 0)
    ∧ (∀ c rc, System in_start c rc ∈ pre ++ evs →
         (rc ≠ 0 → r = Ok rc ∧ ∀ p s, Wrote p s ∉ pre ++ evs) ∧ (r = Ok 0 → rc = 0))
    ∧ (∀ c rc, System in_send_command c rc ∉ pre ++ evs)
    ∧ (∀ c rc, System in_is_running c rc ∉ pre ++ evs)
    ∧ (∀ c rc, System in_build c rc ∈ pre ++ evs → System in_build c rc ∈ pre).
Proof.
  intros E Hw Hs Hf Hq.
  apply launch_trace in E as (evs & L & Hsites & HW & HS & Honly).
  exists evs. split; [exact L|]. split; [by rewrite sites_of_app, Hsites|].
  split_and!.
  - intros p s [Hin|Hin]%elem_of_app; [by apply Hw in Hin|by eapply HW].
  - intros c rc [Hin|Hin]%elem_of_app; [by apply Hs in Hin|].
    destruct (HS _ _ Hin) as [Hne Hz]. split; [|exact Hz].
    intros Hrc. destruct (Hne Hrc) as [-> Hnw]. split; [done|].
    intros p s [Hin'|Hin']%elem_of_app; [by apply Hw in Hin'|by apply Hnw in Hin'].
  - intros c rc [Hin|Hin]%elem_of_app; [by apply Hf in Hin|].
    by apply Honly in Hin.
  - intros c rc [Hin|Hin]%elem_of_app; [by apply Hq in Hin|].
    by apply Honly in Hin.
  - intros c rc [Hin|Hin]%elem_of_app; [done|]. by apply Honly in Hin.
Qed.

Lemma start_trace self (w w' : world H) r :
  start self w = (r, w') →
  ∃ evs, log w' = log w ++ evs
    ∧ (sites_of evs, outcome_is_zero r) ∈ start_orders
    ∧ (∀ p s, Wrote p s ∈ evs → r = Ok 0)
    ∧ (∀ c rc, System in_start c rc ∈ evs →
         (rc ≠ 0 → r = Ok rc ∧ ∀ p s, Wrote p s ∉ evs) ∧ (r = Ok 0 → rc = 0))
    ∧ (∀ c rc, System in_build c rc ∈ evs → r = Ok 0 → rc = 0)
    ∧ (∀ c rc, System in_send_command c rc ∉ evs)
    ∧ (∀ c rc, System in_is_running c rc ∉ evs).
Proof.
  intros E. destruct (FS.exists_ (fs w) (dockerfile self)) eqn:Ex.
  - destruct (start_present self w Ex) as [_ Es]. rewrite Es in E. clear Es.
    set (rcb := shell_rc (_build_line self) w) in *.
    destruct (Z.eqb_spec rcb 0) as [E0|E0].
    + apply (start_trace_launch _ _ _ _ [System in_build (_build_line self) rcb]) in E
        as (evs & L & Hsites & HW & HS & HF & HQ & HB);
        [|intros ? ? Hin; by inv_mem Hin..].
      eexists. split; [rewrite L, log_shell_next, <- app_assoc; reflexivity|].
      fold rcb. split_and!; [|exact HW|exact HS| |exact HF|exact HQ].
      * rewrite Hsites. cbn. destruct (outcome_is_zero r); in_list.
      * intros c rc Hin%HB _. by inv_mem Hin.
    + simplify_eq. eexists. split; [apply log_shell_next|]. fold rcb.
      rewrite outcome_is_zero_nonzero by done. split_and!.
      * cbn. in_list.
      * intros p s Hin. by inv_mem Hin.
      * intros c rc Hin. by inv_mem Hin.
      * intros c rc Hin ?. inv_mem Hin; by simplify_eq.
      * intros c rc Hin. by inv_mem Hin.
      * intros c rc Hin. by inv_mem Hin.
  - destruct (decide (repository self = "")) as [R|R].
    { rewrite (start_unnamed self w Ex R) in E. simplify_eq. exists [].
      rewrite app_nil_r. split; [done|]. split_and!.
      - cbn. in_list.
      - intros p s Hin. by inv_mem Hin.
      - intros c rc Hin. by inv_mem Hin.
      - intros c rc Hin. by inv_mem Hin.
      - intros c rc Hin. by inv_mem Hin.
      - intros c rc Hin. by inv_mem Hin. }
    destruct (start_absent self w Ex R) as [_ Es]. rewrite Es in E. clear Es.
    set (rcp := shell_rc (_pull_line self) w) in *.
    set (w1 := shell_next in_pull (_pull_line self) w) in *.
    set (rci := shell_rc (_image_exists_line self) w1) in *.
    set (w2 := shell_next in_image_exists (_image_exists_line self) w1) in *.
    assert (log w1 = log w ++ [System in_pull (_pull_line self) rcp]) as L1
      by apply log_shell_next.
    assert (log w2 = log w ++ [System in_pull (_pull_line self) rcp;
                               System in_image_exists (_image_exists_line self) rci])
      as L2.
    { unfold w2. rewrite log_shell_next, L1, <- app_assoc. reflexivity. }
    destruct (Z.eqb_spec rcp 0) as [E0|E0]; [|destruct (rci =? 0)].
    + apply (start_trace_launch _ _ _ _ [System in_pull (_pull_line self) rcp]) in E
        as (evs & L & Hsites & HW & HS & HF & HQ & HB);
        [|intros ? ? Hin; by inv_mem Hin..].
      eexists. split; [rewrite L, L1, <- app_assoc; reflexivity|].
      split_and!; [|exact HW|exact HS| |exact HF|exact HQ].
      * rewrite Hsites. cbn. destruct (outcome_is_zero r); in_list.
      * intros c rc Hin%HB _. by inv_mem Hin.
    + apply (start_trace_launch _ _ _ _
               [System in_pull (_pull_line self) rcp;
                System in_image_exists (_image_exists_line self) rci]) in E
        as (evs & L & Hsites & HW & HS & HF & HQ & HB);
        [|intros ? ? Hin; by inv_mem Hin..].
      eexists. split; [rewrite L, L2, <- app_assoc; reflexivity|].
      split_and!; [|exact HW|exact HS| |exact HF|exact HQ].
      * rewrite Hsites. cbn. destruct (outcome_is_zero r); in_list.
      * intros c rc Hin%HB _. by inv_mem Hin.
    + simplify_eq. eexists. split; [exact L2|].
      rewrite outcome_is_zero_nonzero by done. split_and!.
      * cbn. in_list.
      * intros p s Hin. by inv_mem Hin.
      * intros c rc Hin. by inv_mem Hin.
      * intros c rc Hin. by inv_mem Hin.
      * intros c rc Hin. by inv_mem Hin.
      * intros c rc Hin. by inv_mem Hin.
Qed.

Lemma command_orders_of_start steps (ok : bool) :
  (steps, ok) ∈ start_orders →
  (if ok then steps ++ [in_send_command] else steps) ∈ command_orders
  ∧ in_is_running :: (if ok then steps ++ [in_send_command] else steps) ∈ command_orders.
Proof.
  intros Hin. unfold command_orders.
  split; apply list_elem_of_further, list_elem_of_In, in_flat_map;
    exists (steps, ok); (split; [by apply list_elem_of_In|]); simpl; auto.
Qed.

Lemma after_test_pre di (w : world H) :
  ∃ pre, log (after_test di w) = log w ++ pre
    ∧ (pre = []
       ∨ ∃ rc, pre = [System in_is_running (is_running_line di) rc]).
Proof.
  unfold after_test. destruct (fs w !! dazel_run_file di).
  - eexists. split; [apply log_shell_next|]. right. by eexists.
  - exists []. rewrite app_nil_r. split; [done|by left].
Qed.

Lemma run_trace di (w w' : world H) res :
  run di w = (res, w') →
  ∃ evs, log w' = log w ++ evs
    ∧ sites_of evs ∈ command_orders
    ∧ (∀ c r, System in_send_command c r ∈ evs →
         res = Ok r
         ∧ (∀ c' r', System in_build c' r' ∈ evs → r' = 0)
         ∧ (∀ c' r', System in_start c' r' ∈ evs → r' = 0))
    ∧ (∀ c rc, System in_start c rc ∈ evs → rc ≠ 0 →
         res = Ok rc
         ∧ (∀ p s, Wrote p s ∉ evs)
         ∧ (∀ c' r', System in_send_command c' r' ∉ evs)).
Proof.
  rewrite run_eq. destruct (needs_provisioning di w) eqn:En.
  - destruct (after_test_pre di w) as (pre & Lp & Hpre).
    set (wt := after_test di w) in *.
    unfold provision_then_forward. rewrite bind_eq.
    destruct (start di wt) as [r2 w2] eqn:Es.
    apply start_trace in Es as (evs2 & L2 & Ho & HW & HS & HB & HF & HQ).
    assert (∀ p s, Wrote p s ∉ pre) as Pw
      by (intros p s Hin; destruct Hpre as [->|[rc ->]]; by inv_mem Hin).
    assert (∀ s c rc, System s c rc ∈ pre → s = in_is_running) as Ps
      by (intros s c rc Hin; destruct Hpre as [->|[rc' ->]]; by inv_mem Hin).
    assert (∀ steps, (steps, outcome_is_zero r2) ∈ start_orders →
              sites_of pre ++ (if outcome_is_zero r2 then steps ++ [in_send_command] else steps)
                ∈ command_orders) as Po.
    { intros steps Hin. apply command_orders_of_start in Hin as [H1 H2].
      by destruct Hpre as [->|[rc ->]]. }
    destruct r2 as [rc1|e].
    + destruct (Z.eqb_spec rc1 0) as [E0|E0]; cbn [negb].
      * subst rc1. unfold send_command, os_system. intros ?; simplify_eq.
        set (line := send_command_line di (tail (argv H))) in *.
        exists (pre ++ evs2 ++ [System in_send_command line (shell_rc line w2)]).
        split; [by rewrite log_shell_next, L2, Lp, <- !app_assoc|].
        split_and!.
        -- rewrite !sites_of_app. apply (Po _ Ho).
        -- intros c r Hin. rewrite !elem_of_app in Hin.
           destruct Hin as [Hin|[Hin|Hin]];
             [by apply Ps in Hin|by apply HF in Hin|].
           inv_mem Hin. split_and!; [done| |].
           ++ intros c' r'. rewrite !elem_of_app.
              intros [Hi|[Hi|Hi]]; [by apply Ps in Hi|by eapply HB|by inv_mem Hi].
           ++ intros c' r'. rewrite !elem_of_app.
              intros [Hi|[Hi|Hi]]; [by apply Ps in Hi| |by inv_mem Hi].
              by apply (HS _ _ Hi).
        -- intros c rc Hin Hrc. rewrite !elem_of_app in Hin.
           destruct Hin as [Hin|[Hin|Hin]];
             [by apply Ps in Hin| |by inv_mem Hin].
           destruct (HS _ _ Hin) as [_ Hz]. by specialize (Hz eq_refl).
      * rewrite ret_eq. intros ?; simplify_eq.
        exists (pre ++ evs2). split; [by rewrite L2, Lp, <- !app_assoc|].
        rewrite outcome_is_zero_nonzero in * by done. split_and!.
        -- rewrite !sites_of_app. apply (Po _ Ho).
        -- intros c r Hin. rewrite !elem_of_app in Hin.
           destruct Hin as [Hin|Hin]; [by apply Ps in Hin|by apply HF in Hin].
        -- intros c rc Hin Hrc. rewrite !elem_of_app in Hin.
           destruct Hin as [Hin|Hin]; [by apply Ps in Hin|].
           destruct (HS _ _ Hin) as [Hne _]. destruct (Hne Hrc) as [? Hnw].
           simplify_eq. split_and!; [done| |].
           ++ intros p s [Hi|Hi]%elem_of_app; [by apply Pw in Hi|by apply Hnw in Hi].
           ++ intros c' r' [Hi|Hi]%elem_of_app; [by apply Ps in Hi|by apply HF in Hi].
    + intros ?; simplify_eq.
      exists (pre ++ evs2). split; [by rewrite L2, Lp, <- !app_assoc|].
      cbn [outcome_is_zero] in *. split_and!.
      * rewrite !sites_of_app. apply (Po _ Ho).
      * intros c r Hin. rewrite !elem_of_app in Hin.
        destruct Hin as [Hin|Hin]; [by apply Ps in Hin|by apply HF in Hin].
      * intros c rc Hin Hrc. rewrite !elem_of_app in Hin.
        destruct Hin as [Hin|Hin]; [by apply Ps in Hin|].
        destruct (HS _ _ Hin) as [Hne _]. by destruct (Hne Hrc).
  - assert (is_Some (fs w !! dazel_run_file di)) as [m Em].
    { unfold needs_provisioning in En. by destruct (fs w !! dazel_run_file di). }
    unfold after_test. rewrite Em.
    unfold send_command, os_system. intros ?; simplify_eq.
    eexists. split.
    { rewrite !log_shell_next, <- app_assoc. reflexivity. }
    split_and!.
    + cbn. in_list.
    + intros c r Hin. inv_mem Hin. split_and!; [done| |].
      * intros c' r' Hi. by inv_mem Hi.
      * intros c' r' Hi. by inv_mem Hi.
    + intros c rc Hin. by inv_mem Hin.
Qed.

Lemma _add_volumes_events self vols (w w' : world H) r :
  _add_volumes self vols w = (r, w') →
  ∃ evs, log w' = log w ++ evs ∧ ∀ e, e ∈ evs → ∃ p, e = MadeDirs p.
Proof.
  unfold _add_volumes. rewrite bind_eq.
  assert (∃ evs : list event, log w = log w ++ evs ∧ ∀ e, e ∈ evs → ∃ p, e = MadeDirs p)
    as Hnil by (exists []; rewrite app_nil_r; split; [done|by intros e Hin%elem_of_nil]).
  destruct (mount_list self vols w) as [[mounts|e] w1] eqn:E1;
    apply mount_list_world in E1 as ->; [|by intros ?; simplify_eq].
  rewrite bind_eq, derive_output_root_eq, bind_eq.
  unfold os_path_isdir. cbn [bazel_user_output_root].
  destruct (FS.isdir (fs w) (settled_root H self)); cbn [negb];
    rewrite bind_eq, ?ret_eq; [by intros ?; simplify_eq|].
  unfold os_makedirs. destruct (FS.makedirs _ _ _) as [fs'|];
    rewrite ?ret_eq; intros ?; simplify_eq; [|done].
  eexists. split; [reflexivity|]. intros e Hin. inv_mem Hin. by eexists.
Qed.

Lemma from_config_events (w w' : world H) r :
  from_config w = (r, w') →
  ∃ evs, log w' = log w ++ evs ∧ ∀ e, e ∈ evs → ∃ p, e = MadeDirs p.
Proof.
  assert (∃ evs : list event, log w = log w ++ evs ∧ ∀ e, e ∈ evs → ∃ p, e = MadeDirs p)
    as Hnil by (exists []; rewrite app_nil_r; split; [done|by intros e Hin%elem_of_nil]).
  unfold from_config. rewrite bind_eq.
  destruct (_config_from_file w) as [[file|e] w1] eqn:E;
    apply _config_from_file_world in E as ->; [|by intros ?; simplify_eq].
  unfold __init__.
  repeat (rewrite bind_eq;
    lazymatch goal with
    | |- context [str_arg ?s ?a w] =>
        let E := fresh in
        destruct (str_arg s a w) as [[?|?] ?] eqn:E;
        apply str_arg_world in E as ->; [|by intros ?; simplify_eq]
    end).
  apply _add_volumes_events.
Qed.

Lemma sites_of_dirs (evs : list event) :
  (∀ e, e ∈ evs → ∃ p, e = MadeDirs p) → sites_of evs = [].
Proof.
  induction evs as [|e evs IH]; [done|]. intros Hd.
  destruct (Hd e (list_elem_of_here _ _)) as [p ->]. cbn.
  apply IH. intros e He. apply Hd. by right.
Qed.

(** A run of [main]: the events of construction, all of them directory
    creations, then those of [run] if an instance was constructed. *)
Lemma main_trace (w w' : world H) res :
  main w = (res, w') →
  ∃ evs0 evs,
    new_events w w' = evs0 ++ evs
    ∧ (∀ e, e ∈ evs0 → ∃ p, e = MadeDirs p)
    ∧ ((evs = [] ∧ ∃ e, res = Raise e)
       ∨ ∃ di w0, run di w0 = (res, w') ∧ log w' = log w0 ++ evs).
Proof.
  unfold main. rewrite bind_eq.
  destruct (from_config w) as [[di|e] w0] eqn:Ec;
    apply from_config_events in Ec as (evs0 & L0 & Hd).
  - intros Er. pose proof Er as Er'.
    apply run_trace in Er' as (evs & L & _).
    exists evs0, evs. split_and!; [|done|right; by exists di, w0].
    apply new_events_app. by rewrite L, L0, <- app_assoc.
  - intros ?; simplify_eq. exists evs0, []. split_and!; [|done|left; eauto].
    apply new_events_app. by rewrite app_nil_r.
Qed.

End Order.

(** X11. The commands of a whole run come in one of a few orders: [is_running]
    is asked at most once and before anything else; provisioning is the
    build and then the container run, or the pull, the image listing only
    after it, and then the container run; the command is forwarded at most
    once, as the last step, either straight after [is_running] or after a
    provisioning that went through to a successful container run. *)
Theorem commands_in_order (H : host) (w w' : world H) (res : outcome Z) :
  main w = (res, w') →
  sites_of (new_events w w') ∈ command_orders.
Proof.
  intros E. apply main_trace in E as (evs0 & evs & -> & Hd & [[-> _]|(di & w0 & Er & L)]).
  - rewrite app_nil_r, sites_of_dirs by done. unfold command_orders. cbn. in_list.
  - rewrite sites_of_app, sites_of_dirs by done.
    apply run_trace in Er as (evs' & L' & Ho & _).
    rewrite L in L'. apply app_inv_head in L' as ->. exact Ho.
Qed.

Lemma commands_in_order_witness :
  sites_of (new_events Demo.fresh (main Demo.fresh).2)
    = [in_build; in_start; in_send_command]
  ∧ sites_of (new_events Demo.offline (main Demo.offline).2)
    = [in_pull; in_image_exists; in_start; in_send_command]
  ∧ sites_of (new_events Demo.fresh (main Demo.fresh).2) ∈ command_orders.
Proof.
  split_and!; [reflexivity|reflexivity|].
  exact (commands_in_order Demo.project Demo.fresh _ _ (surjective_pairing _)).
Defined.

(** X12. Whenever [main] forwards the command, it returns what the forwarded
    command returned, and every build and every container run of that
    invocation had returned 0. *)
Theorem forwarding_returns_its_code (H : host) (w w' : world H)
    (res : outcome Z) (cmd : string) (rc : Z) :
  main w = (res, w') →
  System in_send_command cmd rc ∈ new_events w w' →
  res = Ok rc
  ∧ (∀ c r, System in_build c r ∈ new_events w w' → r = 0)
  ∧ (∀ c r, System in_start c r ∈ new_events w w' → r = 0).
Proof.
  intros E. apply main_trace in E as (evs0 & evs & -> & Hd & [[-> _]|(di & w0 & Er & L)]).
  { rewrite app_nil_r. intros Hin. by destruct (Hd _ Hin). }
  apply run_trace in Er as (evs' & L' & _ & Hf & _).
  rewrite L in L'. apply app_inv_head in L' as <-.
  intros [Hin|Hin]%elem_of_app; [by destruct (Hd _ Hin)|].
  destruct (Hf _ _ Hin) as (-> & Hb & Hs). split_and!; [done| |].
  - intros c r [Hi|Hi]%elem_of_app; [by destruct (Hd _ Hi)|by eapply Hb].
  - intros c r [Hi|Hi]%elem_of_app; [by destruct (Hd _ Hi)|by eapply Hs].
Qed.

Lemma forwarding_returns_its_code_witness :
  System in_send_command (send_command_line Demo.constructed ["build"; "//..."]) 0
    ∈ new_events Demo.fresh (main Demo.fresh).2
  ∧ (main Demo.fresh).1 = Ok 0.
Proof.
  assert (System in_send_command (send_command_line Demo.constructed ["build"; "//..."]) 0
            ∈ new_events Demo.fresh (main Demo.fresh).2) as Hin.
  { vm_compute. do 6 right. left. }
  split; [exact Hin|].
  exact (proj1 (forwarding_returns_its_code Demo.project Demo.fresh _ _ _ _
                  (surjective_pairing _) Hin)).
Defined.

(** X13. When the command that runs the container returns a non-zero code,
    [main] returns that code, the run file is not written and nothing is
    forwarded. *)
Theorem failed_run_aborts (H : host) (w w' : world H) (res : outcome Z)
    (cmd : string) (rc : Z) :
  main w = (res, w') →
  System in_start cmd rc ∈ new_events w w' →
  rc ≠ 0 →
  res = Ok rc
  ∧ (∀ p s, Wrote p s ∉ new_events w w')
  ∧ (∀ c r, System in_send_command c r ∉ new_events w w').
Proof.
  intros E. apply main_trace in E as (evs0 & evs & -> & Hd & [[-> _]|(di & w0 & Er & L)]).
  { rewrite app_nil_r. intros Hin. by destruct (Hd _ Hin). }
  apply run_trace in Er as (evs' & L' & _ & _ & Hr).
  rewrite L in L'. apply app_inv_head in L' as <-.
  intros [Hin|Hin]%elem_of_app Hrc; [by destruct (Hd _ Hin)|].
  destruct (Hr _ _ Hin Hrc) as (-> & Hw & Hs). split_and!; [done| |].
  - intros p s [Hi|Hi]%elem_of_app; [by destruct (Hd _ Hi)|by apply Hw in Hi].
  - intros c r [Hi|Hi]%elem_of_app; [by destruct (Hd _ Hi)|by apply Hs in Hi].
Qed.

Lemma failed_run_aborts_witness :
  System in_start (run_line Demo.project Demo.constructed) 32000
    ∈ new_events DemoRc.unrunnable (main DemoRc.unrunnable).2
  ∧ 32000 ≠ 0
  ∧ (main DemoRc.unrunnable).1 = Ok 32000
  ∧ fs (main DemoRc.unrunnable).2 !! ".dazel_run" = None.
Proof.
  assert (System in_start (run_line Demo.project Demo.constructed) 32000
            ∈ new_events DemoRc.unrunnable (main DemoRc.unrunnable).2) as Hin.
  { vm_compute. do 3 right. left. }
  assert (32000 ≠ 0) as Hrc by lia.
  split_and!; [exact Hin|exact Hrc| |reflexivity].
  exact (proj1 (failed_run_aborts Demo.project DemoRc.unrunnable _ _ _ _
                  (surjective_pairing _) Hin Hrc)).
Defined.

Lemma other_names_ignored_witness :
  Py.startswith "DAZEL_" "PATH" = false
  ∧ environ Demo.configured !! "PATH" = Some "/usr/bin"
  ∧ update (list_to_map Demo.rc_bindings) (_config_from_environment Demo.configured)
      !! "PATH" = None.
Proof.
  split_and!; [reflexivity|reflexivity|].
  rewrite (proj1 (other_names_ignored Demo.configured (list_to_map Demo.rc_bindings))
             "PATH" eq_refl).
  reflexivity.
Defined.

(** ** The staleness test at its edges *)

(** X10. The test of [main] never raises (both calls of [getctime] come after
    the file was seen to exist) and leaves the files alone.  With no run
    file it is positive without the container runtime being asked.  With a
    run file and the container reported running it is negative when the
    Dockerfile is gone, and negative when the two change times are equal:
    only a strictly newer Dockerfile makes the instance stale. *)
Theorem staleness_edges (H : host) (di : DockerInstance) (w : world H) :
  let asked := shell_next in_is_running (is_running_line di) w in
  (∃ b w', stale di w = (Ok b, w') ∧ fs w' = fs w)
  ∧ (fs w !! dazel_run_file di = None → stale di w = (Ok true, w))
  ∧ (∀ m, fs w !! dazel_run_file di = Some m → reported_running di w = true →
       fs w !! dockerfile di = None → stale di w = (Ok false, asked))
  ∧ (∀ m d, fs w !! dazel_run_file di = Some m → reported_running di w = true →
       fs w !! dockerfile di = Some d →
       st_ctime (node_stat d) = st_ctime (node_stat m) →
       stale di w = (Ok false, asked)).
Proof.
  intros asked. rewrite stale_eq. split_and!.
  - eexists _, _. split; [reflexivity|]. apply after_test_fs.
  - unfold needs_provisioning, after_test. by intros ->.
  - unfold needs_provisioning, after_test. by intros m -> -> ->.
  - unfold needs_provisioning, after_test. intros m d -> -> -> ->.
    by rewrite Z.ltb_irrefl.
Qed.

Lemma staleness_edges_witness :
  (fs Demo.fresh !! dazel_run_file Demo.di0 = None
   ∧ stale Demo.di0 Demo.fresh = (Ok true, Demo.fresh))
  ∧ (reported_running Demo.di0 DemoRc.dockerfile_removed = true
     ∧ fs DemoRc.dockerfile_removed !! dockerfile Demo.di0 = None
     ∧ (stale Demo.di0 DemoRc.dockerfile_removed).1 = Ok false)
  ∧ (reported_running Demo.di0 DemoRc.same_instant = true
     ∧ (stale Demo.di0 DemoRc.same_instant).1 = Ok false).
Proof.
  split_and!.
  - reflexivity.
  - exact (proj1 (proj2 (staleness_edges Demo.project Demo.di0 Demo.fresh)) eq_refl).
  - reflexivity.
  - reflexivity.
  - rewrite (proj1 (proj2 (proj2 (staleness_edges Demo.project Demo.di0
               DemoRc.dockerfile_removed))) _ eq_refl eq_refl eq_refl).
    reflexivity.
  - reflexivity.
  - rewrite (proj2 (proj2 (proj2 (staleness_edges Demo.project Demo.di0
               DemoRc.same_instant))) _ _ eq_refl eq_refl eq_refl eq_refl).
    reflexivity.
Defined.

(** ** The entries of a volumes string *)

Section Entries.

Lemma startswith_upto (p sep s : string) :
  Py.startswith p (upto sep s) = true → Py.startswith p s = true.
Proof.
  revert p. induction s as [|a s IH]; intros p; cbn [upto].
  - by destruct (Py.startswith sep "").
  - destruct (Py.startswith sep (String a s)).
    + by destruct p.
    + destruct p as [|b p]; [done|]. simpl. case_decide; [|done]. apply IH.
Qed.

Lemma upto_free (sep s : string) :
  sep ≠ "" → Py.contains sep (upto sep s) = false.
Proof.
  intros Hsep. induction s as [|a s IH]; cbn [upto].
  - destruct (Py.startswith sep ""); simpl; by rewrite startswith_nil.
  - destruct (Py.startswith sep (String a s)) eqn:E.
    + simpl. by rewrite startswith_nil.
    + cbn [Py.contains]. rewrite IH, orb_false_r.
      destruct (Py.startswith sep (String a (upto sep s))) eqn:E'; [|done].
      destruct sep as [|b sep]; [done|]. simpl in E, E'.
      case_decide; [|done]. apply startswith_upto in E'. congruence.
Qed.

Lemma after_first_shorter (sep s r : string) :
  after_first sep s = Some r → sep ≠ "" →
  (String.length r < String.length s)%nat.
Proof.
  intros E Hsep. revert E. induction s as [|a s IH]; cbn [after_first].
  - by rewrite startswith_nil.
  - destruct (Py.startswith sep (String a s)).
    + intros ?; simplify_eq. destruct sep as [|b sep]; [done|].
      cbn [String.length Py.drop]. clear.
      assert (∀ n t, String.length (Py.drop n t) ≤ String.length t)%nat as Hd.
      { induction n as [|n IHn]; intros [|c t]; simpl; try lia.
        specialize (IHn t). lia. }
      specialize (Hd (String.length sep) s). lia.
    + intros E. specialize (IH E). simpl. lia.
Qed.

Lemma split_pieces_free (sep s x : string) :
  sep ≠ "" → x ∈ Py.split sep s → Py.contains sep x = false.
Proof.
  intros Hsep. remember (String.length s) as n eqn:Hn. revert s Hn x.
  induction (lt_wf n) as [n _ IH]. intros s -> x.
  rewrite split_spec by done. intros [->|Hin]%elem_of_cons.
  - by apply upto_free.
  - destruct (after_first sep s) as [r|] eqn:Er; [|by apply elem_of_nil in Hin].
    eapply (IH (String.length r)); [|reflexivity|exact Hin].
    by eapply after_first_shorter.
Qed.

Lemma split_not_empty (sep s : string) : sep ≠ "" → Py.split sep s ≠ [].
Proof. intros Hsep. by rewrite split_spec. Qed.

Lemma startswith_app_l (p u t : string) :
  Py.startswith p u = true → Py.startswith p (u +:+ t) = true.
Proof.
  revert u. induction p as [|b p IH]; intros [|a u]; try done.
  rewrite app_cons. simpl. case_decide; [|done]. apply IH.
Qed.

Lemma contains_app_l (sep u t : string) :
  Py.contains sep u = true → Py.contains sep (u +:+ t) = true.
Proof.
  induction u as [|a u IH].
  - simpl. rewrite orb_false_r. intros E. destruct sep; [|done]. by destruct t.
  - rewrite app_cons. cbn [Py.contains]. intros [E|E]%orb_true_iff.
    + apply (startswith_app_l _ _ t) in E. rewrite app_cons in E. by rewrite E.
    + rewrite (IH E). apply orb_true_r.
Qed.

Lemma contains_app_r (sep t v : string) :
  Py.contains sep v = true → Py.contains sep (t +:+ v) = true.
Proof.
  intros E. induction t as [|a t IH]; [done|].
  rewrite app_cons. cbn [Py.contains]. rewrite IH. apply orb_true_r.
Qed.

Lemma lstrip_suffix (x : string) : ∃ t, x = t +:+ Py.lstrip x.
Proof.
  induction x as [|a x [t IH]]; [by exists ""|]. cbn [Py.lstrip].
  destruct (Py.isspace a).
  - exists (String a t). by rewrite app_cons, <- IH.
  - by exists "".
Qed.

Lemma app_nil_r_s (s : string) : s +:+ "" = s.
Proof. induction s as [|a s IH]; [done|]. by rewrite app_cons, IH. Qed.

Lemma rstrip_cons (a : ascii) (s : string) :
  Py.rstrip (String a s) =
  match Py.rstrip s with
  | "" => if Py.isspace a then "" else String a ""
  | r => String a r
  end.
Proof. reflexivity. Qed.

Lemma rstrip_prefix (x : string) : ∃ t, x = Py.rstrip x +:+ t.
Proof.
  induction x as [|a x [t IH]]; [by exists ""|]. rewrite rstrip_cons.
  destruct (Py.rstrip x) as [|b r] eqn:E.
  - destruct (Py.isspace a).
    + by exists (String a x).
    + exists x. by rewrite app_cons.
  - exists t. by rewrite app_cons, <- IH.
Qed.

Lemma strip_free (sep x : string) :
  Py.contains sep x = false → Py.contains sep (Py.strip x) = false.
Proof.
  intros Hx. unfold Py.strip.
  destruct (Py.contains sep (Py.rstrip (Py.lstrip x))) eqn:E; [|done].
  destruct (rstrip_prefix (Py.lstrip x)) as [t Ht].
  destruct (lstrip_suffix x) as [t' Ht'].
  apply (contains_app_l _ _ t) in E. rewrite <- Ht in E.
  apply (contains_app_r _ t') in E. rewrite <- Ht' in E. congruence.
Qed.

Lemma rstrip_idem (y : string) : Py.rstrip (Py.rstrip y) = Py.rstrip y.
Proof.
  induction y as [|a y IH]; [done|]. rewrite rstrip_cons.
  destruct (Py.rstrip y) as [|b r] eqn:E.
  - destruct (Py.isspace a) eqn:Ea; [done|]. rewrite rstrip_cons. cbn [Py.rstrip]. by rewrite Ea.
  - by rewrite rstrip_cons, IH.
Qed.

Lemma lstrip_head (x : string) :
  Py.lstrip x = "" ∨ ∃ a r, Py.lstrip x = String a r ∧ Py.isspace a = false.
Proof.
  induction x as [|a x IH]; [by left|]. cbn [Py.lstrip].
  destruct (Py.isspace a) eqn:Ea; [done|]. right. eauto.
Qed.

Lemma strip_trimmed (x : string) :
  Py.lstrip (Py.strip x) = Py.strip x ∧ Py.rstrip (Py.strip x) = Py.strip x.
Proof.
  unfold Py.strip. split; [|apply rstrip_idem].
  destruct (lstrip_head x) as [->|(a & r & -> & Ea)]; [done|].
  rewrite rstrip_cons. destruct (Py.rstrip r); rewrite ?Ea; cbn [Py.lstrip]; by rewrite Ea.
Qed.

End Entries.

(** X4. The entries a volumes string contributes: there is always at least one
    (the empty string gives one empty entry), none of them contains a
    comma, and none begins or ends with white space.  They come first in
    the mount list, before the two implicit mounts. *)
Theorem volume_entries_trimmed (H : host) (self : DockerInstance) (s : string)
    (w : world H) :
  let given := map Py.strip (Py.split "," s) in
  mount_list self (VStr s) w = (Ok (given ++ implicit_mounts H self), w)
  ∧ given ≠ []
  ∧ (s = "" → given = [""])
  ∧ ∀ x, x ∈ given →
      Py.contains "," x = false ∧ Py.lstrip x = x ∧ Py.rstrip x = x.
Proof.
  intros given. split_and!.
  - unfold mount_list. by rewrite bind_eq, check_volumes_total.
  - unfold given. pose proof (split_not_empty "," s ltac:(done)).
    by destruct (Py.split "," s).
  - by intros ->.
  - intros x (y & -> & Hy)%list_elem_of_fmap.
    split; [|apply strip_trimmed].
    apply strip_free. by eapply split_pieces_free.
Qed.

Lemma volume_entries_trimmed_witness :
  "c:d" ∈ map Py.strip (Py.split "," "a:b, c:d")
  ∧ Py.contains "," "c:d" = false ∧ Py.lstrip "c:d" = "c:d" ∧ Py.rstrip "c:d" = "c:d".
Proof.
  assert ("c:d" ∈ map Py.strip (Py.split "," "a:b, c:d")) as Hin
    by (vm_compute; right; left).
  split; [exact Hin|].
  exact (proj2 (proj2 (proj2 (volume_entries_trimmed Demo.project Demo.di0
                                "a:b, c:d" Demo.fresh))) _ Hin).
Defined.
